(** * Real-time chat server: presence registry, message delivery and
      read receipts

    A shallow embedding of the Socket.IO handlers
    ([server/src/socket/handlers.js]), of the REST message routes
    ([server/src/routes/messages.js]) and of the Message schema with its
    static methods ([server/src/models/Message.js]), followed by the
    properties of the delivery pipeline that the specification states.

    Conventions of the embedding:
    - identifiers of users and sockets are strings, as on the wire;
      [socket.userId] and [req.user._id.toString()] are the user's id string.
      Which strings the store casts to an ObjectId is a parameter
      ([castable]); a query by a string that does not cast throws
      [CastError];
    - a string is a JavaScript string all of whose code units are below 256,
      one character per code unit, so [String.length] is [.length];
    - a field of a client payload is [option string]: [None] is a field that
      is absent ([undefined]);
    - the Message collection is the list of its documents in insertion order
      and a document's [_id] is its position (documents are never deleted by
      this code, so positions are stable and a new position is fresh); a
      message id in a request is such a position, possibly one beyond the
      collection, or a string that does not cast ([MessageIdParam]);
    - every handler invocation receives the wall-clock reading [now] that its
      [new Date()] calls and the schema's automatic timestamps observe;
    - a handler runs in the [Handler] monad: it reads and updates the
      [World], may throw, and appends to a trace of [Effect]s every event it
      emits and every write it sends to the store, in program order. *)

From stdpp Require Import gmap strings list fin_maps.
From Stdlib Require Import Ascii.

Open Scope string_scope.
Open Scope nat_scope.
Open Scope list_scope.
Open Scope stdpp_scope.

(** ** Identifiers and documents *)

Abbreviation UserId := string (only parsing).
Abbreviation SocketId := string (only parsing).
Abbreviation MsgId := nat (only parsing).
Abbreviation Time := nat (only parsing).

(** A message id as a request carries it: the id of the document at a
    position of the collection (a well-formed id that names no document is a
    position beyond the collection), or a string that is no ObjectId. *)
Inductive MessageIdParam :=
| ObjectIdOf (i : nat)
| NotAnObjectId.

Coercion ObjectIdOf : nat >-> MessageIdParam.

(** The strings that cast to an ObjectId. The driver that decides it is not
    part of the sources at hand, so the development takes it as a
    parameter. *)
Class ObjectIds := castable : string → bool.

(** Modelled from the spec: the User model ([models/User.js]) is not part of
    the sources at hand. The specification's user directory knows, per
    identity, a display name and the presence state ([isOnline],
    [lastSeen]); [findById] is a lookup and [findByIdAndUpdate] rewrites the
    presence fields of an existing document. *)
Record User := mkUser {
  username : string;
  isOnline : bool;
  lastSeen : Time
}.

(** The Message schema: [delivered] and [read] default to [false], the two
    dates are optional, [timestamps: true] adds [createdAt]/[updatedAt]. *)
Record Message := mkMessage {
  sender : UserId;
  receiver : UserId;
  text : string;
  delivered : bool;
  read : bool;
  readAt : option Time;
  deliveredAt : option Time;
  createdAt : Time;
  updatedAt : Time
}.

(** [new Message({sender, receiver, text})] followed by its first
    [save()]: schema defaults and creation timestamps. *)
Definition new_Message (s r : UserId) (t : string) (now : Time) : Message :=
  {| sender := s; receiver := r; text := t;
     delivered := false; read := false;
     readAt := None; deliveredAt := None;
     createdAt := now; updatedAt := now |}.

(** ** Strings as JavaScript sees them *)

(** [String.prototype.trim]: the white space and line terminator code
    units below 256 are tab, line feed, vertical tab, form feed, carriage
    return, space and no-break space (U+00A0). *)
Definition is_space (c : ascii) : bool :=
  let n := nat_of_ascii c in
  ((9 <=? n) && (n <=? 13)) || (n =? 32) || (n =? 160).

Fixpoint trim_start (s : string) : string :=
  match s with
  | EmptyString => EmptyString
  | String c s' => if is_space c then trim_start s' else s
  end.

Fixpoint trim_end (s : string) : string :=
  match s with
  | EmptyString => EmptyString
  | String c s' =>
      match trim_end s' with
      | EmptyString => if is_space c then EmptyString else String c EmptyString
      | t => String c t
      end
  end.

Definition trim (s : string) : string := trim_end (trim_start s).

(** [!v] for a payload field that is a string or absent. *)
Definition falsy (v : option string) : bool :=
  match v with
  | None => true
  | Some s => bool_decide (s = "")
  end.

(** The string behind a field already known to be truthy. *)
Definition str (v : option string) : string := default "" v.

(** ** Schema validation on [save()] *)

Definition maxlength : nat := 1000.

(** The validators of the [text] path, run on the value after the schema's
    [trim] setter: [required] rejects the empty string, [maxlength] a string
    of more than 1000 characters. [sender] and [receiver] are always present
    in a document built by the handlers below. *)
Definition validate (m : Message) : list string :=
  (if bool_decide (text m = "") then ["Message text is required"] else [])
  ++ (if decide (maxlength < String.length (text m))
      then ["Message cannot exceed 1000 characters"] else []).

(** ** Writes sent to the store *)

Inductive StoreOp :=
| InsertMessage (doc : Message)
    (** first [save()] of a new document *)
| SaveDelivered (i : MsgId) (now : Time)
    (** [save()] with modified paths [delivered], [deliveredAt] *)
| UpdateRead (i : MsgId) (now : Time)
    (** [findByIdAndUpdate(id, {read: true, readAt})], and [save()] with
        modified paths [read], [readAt] *)
| MarkAsRead (senderId receiverId : UserId) (now : Time)
    (** [Message.markAsRead]: [updateMany] over the unread messages *)
| MarkAsDelivered (senderId receiverId : UserId) (now : Time)
    (** [Message.markAsDelivered]: [updateMany] over the undelivered ones *)
| UpdatePresence (u : UserId) (online : bool) (now : Time).
    (** [User.findByIdAndUpdate(id, {isOnline, lastSeen})] *)

Definition set_delivered (now : Time) (m : Message) : Message :=
  {| sender := sender m; receiver := receiver m; text := text m;
     delivered := true; read := read m;
     readAt := readAt m; deliveredAt := Some now;
     createdAt := createdAt m; updatedAt := now |}.

Definition set_read (now : Time) (m : Message) : Message :=
  {| sender := sender m; receiver := receiver m; text := text m;
     delivered := delivered m; read := true;
     readAt := Some now; deliveredAt := deliveredAt m;
     createdAt := createdAt m; updatedAt := now |}.

(** Filter [{ sender: senderId, receiver: receiverId, read: false }]. *)
Definition unread_from (senderId receiverId : UserId) (m : Message) : bool :=
  bool_decide (sender m = senderId) && bool_decide (receiver m = receiverId)
  && negb (read m).

(** Filter [{ sender: senderId, receiver: receiverId, delivered: false }]. *)
Definition undelivered_from (senderId receiverId : UserId) (m : Message) : bool :=
  bool_decide (sender m = senderId) && bool_decide (receiver m = receiverId)
  && negb (delivered m).

Definition update_where (p : Message → bool) (f : Message → Message)
    (ms : list Message) : list Message :=
  (λ m, if p m then f m else m) <$> ms.

(** [modifiedCount] of an [updateMany] whose update changes every match. *)
Definition count_where (p : Message → bool) (ms : list Message) : nat :=
  length (filter (λ m, p m = true) ms).

Definition set_presence (online : bool) (now : Time) (u : User) : User :=
  {| username := username u; isOnline := online; lastSeen := now |}.

(** ** The world the handlers act on *)

Record World := mkWorld {
  activeUsers : gmap string string;   (** userId -> socketId *)
  userSockets : gmap string string;   (** socketId -> userId *)
  users : gmap string User;           (** the User collection *)
  messages : list Message             (** the Message collection *)
}.

Definition with_activeUsers (f : gmap string string → gmap string string)
    (w : World) : World :=
  mkWorld (f (activeUsers w)) (userSockets w) (users w) (messages w).

Definition with_userSockets (f : gmap string string → gmap string string)
    (w : World) : World :=
  mkWorld (activeUsers w) (f (userSockets w)) (users w) (messages w).

Definition with_users (f : gmap string User → gmap string User)
    (w : World) : World :=
  mkWorld (activeUsers w) (userSockets w) (f (users w)) (messages w).

Definition with_messages (f : list Message → list Message)
    (w : World) : World :=
  mkWorld (activeUsers w) (userSockets w) (users w) (f (messages w)).

Definition apply_messages (op : StoreOp) (ms : list Message) : list Message :=
  match op with
  | InsertMessage doc => ms ++ [doc]
  | SaveDelivered i now => alter (set_delivered now) i ms
  | UpdateRead i now => alter (set_read now) i ms
  | MarkAsRead s r now => update_where (unread_from s r) (set_read now) ms
  | MarkAsDelivered s r now =>
      update_where (undelivered_from s r) (set_delivered now) ms
  | UpdatePresence _ _ _ => ms
  end.

Definition apply_users (op : StoreOp) (us : gmap string User) : gmap string User :=
  match op with
  | UpdatePresence u online now => alter (set_presence online now) u us
  | _ => us
  end.

Definition apply_op (op : StoreOp) (w : World) : World :=
  with_users (apply_users op) (with_messages (apply_messages op) w).

(** ** Events pushed to clients *)

Record UserRef := mkUserRef { ref_id : UserId; ref_username : string }.

(** The [messageData] object of the send handler. *)
Record MessageData := mkMessageData {
  md_id : MsgId;
  md_text : string;
  md_sender : UserRef;
  md_receiver : UserRef;
  md_delivered : bool;
  md_read : bool;
  md_createdAt : Time
}.

(** [{ ...d, delivered: b }] *)
Definition override_delivered (d : MessageData) (b : bool) : MessageData :=
  {| md_id := md_id d; md_text := md_text d; md_sender := md_sender d;
     md_receiver := md_receiver d; md_delivered := b; md_read := md_read d;
     md_createdAt := md_createdAt d |}.

Inductive OutEvent :=
| user_online (userId : UserId) (uname : string)
| user_offline (userId : UserId) (uname : string) (seen : Time)
| user_status (userId : UserId) (online : bool) (seen : Time)
| message_new (d : MessageData) (isFromMe : bool)
| message_sent (d : MessageData) (isFromMe : bool)
| typing_start (userId : UserId) (uname : string)
| typing_stop (userId : UserId) (uname : string)
| message_read (messageId : MessageIdParam) (readBy : UserId)
    (at_ : option Time)
| conversation_read (readBy : UserId) (at_ : Time)
| error (message : string).

(** What a handler does to the outside, in program order. *)
Inductive Effect :=
| SocketEmit (sid : SocketId) (e : OutEvent)
    (** [socket.emit]: to the connection that issued the request *)
| IoToEmit (sid : SocketId) (e : OutEvent)
    (** [io.to(sid).emit]: to the connection [sid] *)
| BroadcastEmit (sid : SocketId) (e : OutEvent)
    (** [socket.broadcast.emit]: to every connection but [sid] *)
| SocketDisconnect (sid : SocketId)
    (** [socket.disconnect()] *)
| Stored (op : StoreOp).
    (** a write acknowledged by the store *)

(** ** The handler monad *)

Inductive Exn :=
| ValidationError (errors : list string)
| CastError
| TypeError.

Inductive Outcome (A : Type) :=
| Returned (a : A)
| Thrown (e : Exn).
Arguments Returned {A} a.
Arguments Thrown {A} e.

Definition Handler (A : Type) : Type :=
  World → Outcome A * World * list Effect.

#[global] Instance Handler_ret : MRet Handler :=
  λ A a w, (Returned a, w, []).

#[global] Instance Handler_bind : MBind Handler :=
  λ A B f m w,
    match m w with
    | (Returned a, w1, t1) =>
        match f a w1 with
        | (r, w2, t2) => (r, w2, t1 ++ t2)
        end
    | (Thrown e, w1, t1) => (Thrown e, w1, t1)
    end.

Definition throw {A} (e : Exn) : Handler A := λ w, (Thrown e, w, []).

(** [try { body } catch (error) { handler }]: what [body] did before it
    threw stays done. *)
Definition try_catch {A} (body : Handler A) (handler : Exn → Handler A)
    : Handler A :=
  λ w,
    match body w with
    | (Returned a, w1, t1) => (Returned a, w1, t1)
    | (Thrown e, w1, t1) =>
        match handler e w1 with
        | (r, w2, t2) => (r, w2, t1 ++ t2)
        end
    end.

Definition gets {A} (f : World → A) : Handler A := λ w, (Returned (f w), w, []).
Definition modify (f : World → World) : Handler unit := λ w, (Returned tt, f w, []).
Definition effect (e : Effect) : Handler unit := λ w, (Returned tt, w, [e]).

(** A write to the store: applied, then recorded in the trace. *)
Definition store (op : StoreOp) : Handler unit :=
  λ w, (Returned tt, apply_op op w, [Stored op]).

(** The result [r] of a continuation, after the effects [t] that came
    before it. *)
Definition prepend {A} (t : list Effect) (r : Outcome A * World * list Effect)
    : Outcome A * World * list Effect :=
  (r.1.1, r.1.2, t ++ r.2).

Definition final_world {A} (r : Outcome A * World * list Effect) : World := r.1.2.
Definition trace {A} (r : Outcome A * World * list Effect) : list Effect := r.2.
Definition outcome {A} (r : Outcome A * World * list Effect) : Outcome A := r.1.1.

(** ** Collaborators: the two collections and the registry maps *)

Section Server.

Context `{ids : ObjectIds}.

(** Whether a string of a request casts to a user's ObjectId. The User
    collection holds its documents under ObjectIds, so an id it holds
    casts; for any other string the parameter decides. *)
Definition casts (w : World) (u : string) : bool :=
  bool_decide (is_Some (users w !! u)) || castable u.

(** [User.findById(id)] for a string of a request: the document, [null]
    for a well-formed id the collection does not hold, [CastError] for a
    string that does not cast. *)
Definition User_findById (u : string) : Handler (option User) :=
  gets (λ w, casts w u) ≫= λ ok : bool,
  if ok then gets (λ w, users w !! u) else throw CastError.

(** The user document behind an id that already is an ObjectId: what
    [populate] puts in a [sender] or [receiver] path ([null] when the
    reference does not resolve), and what a query by [req.user._id]
    finds. *)
Definition User_byObjectId (u : UserId) : Handler (option User) :=
  gets (λ w, users w !! u).

Definition User_findByIdAndUpdate (u : UserId) (online : bool) (now : Time)
    : Handler unit :=
  store (UpdatePresence u online now).

(** [Message.findById(id)]: the document, with its [_id], or [null]. *)
Definition Message_findById (id : MessageIdParam)
    : Handler (option (MsgId * Message)) :=
  match id with
  | ObjectIdOf i => gets (λ w, (λ m, (i, m)) <$> messages w !! i)
  | NotAnObjectId => throw CastError
  end.

(** First [save()] of a new document: validate, then insert; the document's
    id is returned. *)
Definition Message_create (doc : Message) : Handler MsgId :=
  match validate doc with
  | [] =>
      i ← gets (λ w, length (messages w));
      store (InsertMessage doc);;
      mret i
  | errs => throw (ValidationError errs)
  end.

(** [findByIdAndUpdate(id, { read: true, readAt: new Date() }, { new: true })] *)
Definition Message_findByIdAndUpdate_read (id : MessageIdParam) (now : Time)
    : Handler (option Message) :=
  match id with
  | ObjectIdOf i => store (UpdateRead i now);; gets (λ w, messages w !! i)
  | NotAnObjectId => throw CastError
  end.

(** [Message.markAsRead(senderId, receiverId)]; the result is the update's
    [modifiedCount]. *)
Definition Message_markAsRead (senderId receiverId : UserId) (now : Time)
    : Handler nat :=
  n ← gets (λ w, count_where (unread_from senderId receiverId) (messages w));
  store (MarkAsRead senderId receiverId now);;
  mret n.

(** [Message.markAsDelivered(senderId, receiverId)] *)
Definition Message_markAsDelivered (senderId receiverId : UserId) (now : Time)
    : Handler nat :=
  n ← gets (λ w, count_where (undelivered_from senderId receiverId) (messages w));
  store (MarkAsDelivered senderId receiverId now);;
  mret n.

Definition activeUsers_get (u : UserId) : Handler (option string) :=
  gets (λ w, activeUsers w !! u).
Definition activeUsers_set (u : UserId) (sid : SocketId) : Handler unit :=
  modify (with_activeUsers (insert u sid)).
Definition activeUsers_delete (u : UserId) : Handler unit :=
  modify (with_activeUsers (delete u)).
Definition userSockets_set (sid : SocketId) (u : UserId) : Handler unit :=
  modify (with_userSockets (insert sid u)).
Definition userSockets_delete (sid : SocketId) : Handler unit :=
  modify (with_userSockets (delete sid)).

(** ** The live channel ([socket/handlers.js]) *)

(** An authenticated connection: [socket.id], [socket.userId] and
    [socket.user.username], as the authentication middleware left them. *)
Record Socket := mkSocket {
  socket_id : SocketId;
  socket_userId : UserId;
  socket_username : string
}.

(** Payload of [message:send] and body of [POST /messages]. *)
Record SendData := mkSendData {
  receiverId : option string;
  text_ : option string
}.

Definition socket_emit (socket : Socket) (e : OutEvent) : Handler unit :=
  effect (SocketEmit (socket_id socket) e).
Definition io_to_emit (sid : SocketId) (e : OutEvent) : Handler unit :=
  effect (IoToEmit sid e).
Definition broadcast_emit (socket : Socket) (e : OutEvent) : Handler unit :=
  effect (BroadcastEmit (socket_id socket) e).

(** The [messageData] literal built from the populated document:
    [message.sender] and [message.receiver] are the referenced user
    documents, or [null] when the reference does not resolve, in which case
    reading [._id] throws. *)
Definition messageData (i : MsgId) (message : Message)
    (populated_sender populated_receiver : option User) : Handler MessageData :=
  match populated_sender, populated_receiver with
  | Some s, Some r =>
      mret {| md_id := i;
              md_text := text message;
              md_sender := mkUserRef (sender message) (username s);
              md_receiver := mkUserRef (receiver message) (username r);
              md_delivered := delivered message;
              md_read := read message;
              md_createdAt := createdAt message |}
  | _, _ => throw TypeError
  end.

(** [io.on('connection', ...)] up to the registration of the event
    handlers. *)
Definition on_connection (socket : Socket) (now : Time) : Handler unit :=
  let userId := socket_userId socket in
  try_catch
    (activeUsers_set userId (socket_id socket);;
     userSockets_set (socket_id socket) userId;;
     User_findByIdAndUpdate userId true now;;
     broadcast_emit socket (user_online userId (socket_username socket)))
    (λ _, effect (SocketDisconnect (socket_id socket))).

(** [socket.on('message:send', ...)] *)
Definition on_message_send (socket : Socket) (data : SendData) (now : Time)
    : Handler unit :=
  let userId := socket_userId socket in
  try_catch
    (if falsy (receiverId data) || falsy (text_ data)
        || bool_decide (String.length (trim (str (text_ data))) = 0)
     then socket_emit socket (error "Invalid message data")
     else
       receiver_doc ← User_findById (str (receiverId data));
       match receiver_doc with
       | None => socket_emit socket (error "Receiver not found")
       | Some _ =>
           let message :=
             new_Message userId (str (receiverId data))
                         (trim (str (text_ data))) now in
           i ← Message_create message;
           populated_sender ← User_byObjectId (sender message);
           populated_receiver ← User_byObjectId (receiver message);
           d ← messageData i message populated_sender populated_receiver;
           receiverSocketId ← activeUsers_get (str (receiverId data));
           message ←
             (if negb (falsy receiverSocketId)
              then
                io_to_emit (str receiverSocketId) (message_new d false);;
                store (SaveDelivered i now);;
                mret (set_delivered now message)
              else mret message);
           socket_emit socket
             (message_sent (override_delivered d (delivered message)) true)
       end)
    (λ _, socket_emit socket (error "Failed to send message")).

(** [socket.on('typing:start', ...)] and [socket.on('typing:stop', ...)].
    Nothing in their bodies throws here, nor in those of [status:update]
    and [disconnect] below; their [catch] blocks write to the console. *)
Definition on_typing_start (socket : Socket) (receiverId : UserId)
    : Handler unit :=
  receiverSocketId ← activeUsers_get receiverId;
  if negb (falsy receiverSocketId)
  then io_to_emit (str receiverSocketId)
         (typing_start (socket_userId socket) (socket_username socket))
  else mret tt.

Definition on_typing_stop (socket : Socket) (receiverId : UserId)
    : Handler unit :=
  receiverSocketId ← activeUsers_get receiverId;
  if negb (falsy receiverSocketId)
  then io_to_emit (str receiverSocketId)
         (typing_stop (socket_userId socket) (socket_username socket))
  else mret tt.

(** [socket.on('message:read', ...)]; the [catch] block writes to the
    console. *)
Definition on_message_read (socket : Socket) (messageId : MessageIdParam)
    (senderId : UserId) (now : Time) : Handler unit :=
  try_catch
    (message ← Message_findByIdAndUpdate_read messageId now;
     match message with
     | Some message =>
         senderSocketId ← activeUsers_get senderId;
         if negb (falsy senderSocketId)
         then io_to_emit (str senderSocketId)
                (message_read messageId (socket_userId socket) (readAt message))
         else mret tt
     | None => mret tt
     end)
    (λ _, mret tt).

(** [socket.on('conversation:read', ...)]: the query of [markAsRead] casts
    [senderId]; the [catch] block writes to the console. *)
Definition on_conversation_read (socket : Socket) (senderId : string)
    (now : Time) : Handler unit :=
  try_catch
    (gets (λ w, casts w senderId) ≫= λ ok : bool,
     if ok then
       Message_markAsRead senderId (socket_userId socket) now;;
       senderSocketId ← activeUsers_get senderId;
       if negb (falsy senderSocketId)
       then io_to_emit (str senderSocketId)
              (conversation_read (socket_userId socket) now)
       else mret tt
     else throw CastError)
    (λ _, mret tt).

(** [socket.on('status:update', ...)] *)
Definition on_status_update (socket : Socket) (isOnline_ : option bool)
    (now : Time) : Handler unit :=
  let online := default true isOnline_ in
  User_findByIdAndUpdate (socket_userId socket) online now;;
  broadcast_emit socket (user_status (socket_userId socket) online now).

(** [socket.on('disconnect', ...)] *)
Definition on_disconnect (socket : Socket) (now : Time) : Handler unit :=
  let userId := socket_userId socket in
  activeUsers_delete userId;;
  userSockets_delete (socket_id socket);;
  User_findByIdAndUpdate userId false now;;
  broadcast_emit socket (user_offline userId (socket_username socket) now).

(** Helper functions exported next to the handlers. *)
Definition getOnlineUsers (w : World) : list UserId :=
  (map_to_list (activeUsers w)).*1.

Definition isUserOnline (w : World) (userId : UserId) : bool :=
  bool_decide (is_Some (activeUsers w !! userId)).

(** ** The REST routes ([routes/messages.js]) *)

(** A message of a fetched page, as [find] read it and [populate] filled
    it: [populate] replaces the [sender] and [receiver] references by the
    user documents they name, or by [null] when there is none. *)
Record PopulatedMessage := mkPopulatedMessage {
  pm_id : MsgId;
  pm_doc : Message;
  pm_sender : option User;
  pm_receiver : option User
}.

(** An element of [formattedMessages]. *)
Record FormattedMessage := mkFormattedMessage {
  fm_id : MsgId;
  fm_text : string;
  fm_sender : UserRef;
  fm_receiver : UserRef;
  fm_delivered : bool;
  fm_read : bool;
  fm_createdAt : Time;
  fm_updatedAt : Time;
  fm_isFromMe : bool
}.

Inductive ResponseData :=
| NoData
| ConversationPage (formattedMessages : list FormattedMessage)
    (page limit : nat) (hasMore : bool)
| SentMessage (d : MessageData) (updated : Time) (isFromMe : bool)
| ReadReceipt (messageId : MsgId) (read_ : bool) (at_ : option Time)
| Modified (modifiedCount : nat).

Record Response := mkResponse {
  status : nat;
  success : bool;
  message_ : option string;
  data_ : ResponseData
}.

Definition failure (code : nat) (msg : string) : Response :=
  mkResponse code false (Some msg) NoData.

(** Filter of [Message.getConversation]: the messages two users
    exchanged, in either direction. *)
Definition exchanged_by (userId1 userId2 : UserId) (m : Message) : bool :=
  (bool_decide (sender m = userId1) && bool_decide (receiver m = userId2))
  || (bool_decide (sender m = userId2) && bool_decide (receiver m = userId1)).

(** [.sort({ createdAt: -1 })]: newest first. The store leaves the order
    of documents with equal [createdAt] open; the sort here keeps them in
    insertion order, and no theorem below depends on that choice. *)
Fixpoint insert_newest_first (p : MsgId * Message)
    (l : list (MsgId * Message)) : list (MsgId * Message) :=
  match l with
  | [] => [p]
  | q :: l' =>
      if createdAt q.2 <=? createdAt p.2
      then p :: q :: l'
      else q :: insert_newest_first p l'
  end.

Definition newest_first (l : list (MsgId * Message))
    : list (MsgId * Message) :=
  foldr insert_newest_first [] l.

(** What the query of [Message.getConversation] selects in a store: the
    messages of the two users, newest first, [(page - 1) * limit] skipped
    and [limit] kept, each with its [sender] and [receiver] populated. It
    is the query for [page >= 1] and [limit >= 1]. *)
Definition conversation_page (userId1 userId2 : UserId) (page limit : nat)
    (w : World) : list PopulatedMessage :=
  (λ p : MsgId * Message,
     mkPopulatedMessage p.1 p.2 (users w !! sender p.2)
                        (users w !! receiver p.2))
  <$> take limit
        (drop ((page - 1) * limit)
           (newest_first
              (List.filter (λ p, exchanged_by userId1 userId2 p.2)
                 (imap pair (messages w))))).

(** [Message.getConversation(userId1, userId2, page, limit)] *)
Definition Message_getConversation (userId1 userId2 : UserId)
    (page limit : nat) : Handler (list PopulatedMessage) :=
  gets (conversation_page userId1 userId2 page limit).

(** The object the route's [map] builds of one message. It reads [._id]
    and [.username] of the populated [sender] and [receiver], which throws
    on [null]: [None] stands for that. *)
Definition format_message (me : UserId) (p : PopulatedMessage)
    : option FormattedMessage :=
  match pm_sender p, pm_receiver p with
  | Some s, Some r =>
      Some {| fm_id := pm_id p;
              fm_text := text (pm_doc p);
              fm_sender := mkUserRef (sender (pm_doc p)) (username s);
              fm_receiver := mkUserRef (receiver (pm_doc p)) (username r);
              fm_delivered := delivered (pm_doc p);
              fm_read := read (pm_doc p);
              fm_createdAt := createdAt (pm_doc p);
              fm_updatedAt := updatedAt (pm_doc p);
              fm_isFromMe := bool_decide (sender (pm_doc p) = me) |}
  | _, _ => None
  end.

(** The defaults of [const { page = 1, limit = 50 } = req.query]. *)
Definition default_page : nat := 1.
Definition default_limit : nat := 50.

(** [GET /messages/conversations/:id/messages] for the authenticated user
    [me], in a request whose query names no [page] and no [limit]: the
    page is fetched, the other user's messages to [me] are marked
    delivered, and the page as it was fetched is formatted, oldest first. *)
Definition get_conversation_messages (me : UserId) (otherUserId : string)
    (now : Time) : Handler Response :=
  try_catch
    (otherUser ← User_findById otherUserId;
     match otherUser with
     | None => mret (failure 404 "User not found")
     | Some _ =>
         messages_ ← Message_getConversation me otherUserId
                       default_page default_limit;
         Message_markAsDelivered otherUserId me now;;
         match mapM (format_message me) (reverse messages_) with
         | Some formattedMessages =>
             mret (mkResponse 200 true None
                     (ConversationPage formattedMessages
                        default_page default_limit
                        (bool_decide (length messages_ = default_limit))))
         | None => throw TypeError
         end
     end)
    (λ e,
       match e with
       | CastError => mret (failure 400 "Invalid user ID")
       | _ => mret (failure 500 "Server error while fetching messages")
       end).

(** [POST /messages] *)
Definition post_message (me : UserId) (body : SendData) (now : Time)
    : Handler Response :=
  try_catch
    (if falsy (receiverId body) || falsy (text_ body)
     then mret (failure 400 "Receiver ID and message text are required")
     else if bool_decide (String.length (trim (str (text_ body))) = 0)
     then mret (failure 400 "Message text cannot be empty")
     else
       receiver_doc ← User_findById (str (receiverId body));
       match receiver_doc with
       | None => mret (failure 404 "Receiver not found")
       | Some _ =>
           if bool_decide (str (receiverId body) = me)
           then mret (failure 400 "Cannot send message to yourself")
           else
             let message :=
               new_Message me (str (receiverId body))
                           (trim (str (text_ body))) now in
             i ← Message_create message;
             populated_sender ← User_byObjectId (sender message);
             populated_receiver ← User_byObjectId (receiver message);
             d ← messageData i message populated_sender populated_receiver;
             mret (mkResponse 201 true (Some "Message sent successfully")
                     (SentMessage d (updatedAt message) true))
       end)
    (λ e,
       match e with
       | CastError => mret (failure 400 "Invalid receiver ID")
       | ValidationError errs => mret (failure 400 (String.concat ", " errs))
       | _ => mret (failure 500 "Server error while sending message")
       end).

(** [PUT /messages/:id/read] *)
Definition put_message_read (me : UserId) (id : MessageIdParam) (now : Time)
    : Handler Response :=
  try_catch
    (message ← Message_findById id;
     match message with
     | None => mret (failure 404 "Message not found")
     | Some (i, message) =>
         if negb (bool_decide (receiver message = me))
         then mret (failure 403 "Not authorized to mark this message as read")
         else
           let message := set_read now message in
           store (UpdateRead i now);;
           mret (mkResponse 200 true (Some "Message marked as read")
                   (ReadReceipt i (read message) (readAt message)))
     end)
    (λ e,
       match e with
       | CastError => mret (failure 400 "Invalid message ID")
       | _ => mret (failure 500 "Server error while marking message as read")
       end).

(** [PUT /messages/conversations/:id/read] *)
Definition put_conversation_read (me : UserId) (senderId : string)
    (now : Time) : Handler Response :=
  try_catch
    (sender_doc ← User_findById senderId;
     match sender_doc with
     | None => mret (failure 404 "User not found")
     | Some _ =>
         n ← Message_markAsRead senderId me now;
         mret (mkResponse 200 true (Some "Messages marked as read") (Modified n))
     end)
    (λ e,
       match e with
       | CastError => mret (failure 400 "Invalid user ID")
       | _ => mret (failure 500 "Server error while marking messages as read")
       end).

(** ** The server as a transition system *)

Inductive Request :=
| Connection (socket : Socket)
| MessageSend (socket : Socket) (data : SendData)
| TypingStart (socket : Socket) (receiverId : UserId)
| TypingStop (socket : Socket) (receiverId : UserId)
| MessageRead (socket : Socket) (messageId : MessageIdParam)
    (senderId : UserId)
| ConversationRead (socket : Socket) (senderId : UserId)
| StatusUpdate (socket : Socket) (isOnline_ : option bool)
| Disconnect (socket : Socket)
| GetConversationMessages (me otherUserId : UserId)
| PostMessage (me : UserId) (body : SendData)
| PutMessageRead (me : UserId) (id : MessageIdParam)
| PutConversationRead (me senderId : UserId).

Definition silently (h : Handler unit) : Handler (option Response) :=
  h;; mret None.
Definition responding (h : Handler Response) : Handler (option Response) :=
  r ← h; mret (Some r).

Definition handle (now : Time) (req : Request) : Handler (option Response) :=
  match req with
  | Connection s => silently (on_connection s now)
  | MessageSend s d => silently (on_message_send s d now)
  | TypingStart s r => silently (on_typing_start s r)
  | TypingStop s r => silently (on_typing_stop s r)
  | MessageRead s i u => silently (on_message_read s i u now)
  | ConversationRead s u => silently (on_conversation_read s u now)
  | StatusUpdate s o => silently (on_status_update s o now)
  | Disconnect s => silently (on_disconnect s now)
  | GetConversationMessages me o => responding (get_conversation_messages me o now)
  | PostMessage me b => responding (post_message me b now)
  | PutMessageRead me i => responding (put_message_read me i now)
  | PutConversationRead me u => responding (put_conversation_read me u now)
  end.

(** A run: requests handled one after the other, each at its own time. *)
Fixpoint run (reqs : list (Time * Request)) (w : World) : World :=
  match reqs with
  | [] => w
  | (now, req) :: reqs' => run reqs' (final_world (handle now req w))
  end.

(** The writes a trace sent to the store, and their replay on the Message
    collection. Handlers suspend at every [await]; between two writes of one
    handler the writes of others may land, so the store sees some
    interleaving of such writes. *)
Definition stored_ops (t : list Effect) : list StoreOp :=
  omap (λ e, match e with Stored op => Some op | _ => None end) t.

Definition replay (ops : list StoreOp) (ms : list Message) : list Message :=
  foldl (λ ms op, apply_messages op ms) ms ops.

(** A handler changes the Message collection only through the writes its
    trace records. *)
Definition writes_through {A} (h : Handler A) : Prop :=
  ∀ w, messages (final_world (h w))
       = replay (stored_ops (trace (h w))) (messages w).

(** A handler that leaves one component of the world as it found it. *)
Definition preserves {A B} (proj : World → B) (h : Handler A) : Prop :=
  ∀ w, proj (final_world (h w)) = proj w.

(** ** Notions used in the statements *)

(** [m'] is a later state of the document [m]: same message, and neither
    delivery flag went from [true] back to [false]. *)
Definition not_regressed (m m' : Message) : Prop :=
  sender m' = sender m ∧ receiver m' = receiver m ∧ text m' = text m
  ∧ createdAt m' = createdAt m
  ∧ (delivered m = true → delivered m' = true)
  ∧ (read m = true → read m' = true).

Definition store_monotone (ms ms' : list Message) : Prop :=
  ∀ i m, ms !! i = Some m → ∃ m', ms' !! i = Some m' ∧ not_regressed m m'.

(** A request that registers or unregisters a connection of user [u]. *)
Definition touches_registration (u : UserId) (req : Request) : Prop :=
  match req with
  | Connection s | Disconnect s => socket_userId s = u
  | _ => False
  end.




(** A send request that passes every check of the live-channel handler and
    of the schema: both fields present and non-empty, text non-empty after
    trimming and within [maxlength], receiver and sender known to the user
    directory. *)
Record accepted_send (socket : Socket) (data : SendData) (w : World)
    (rid txt : string) (su ru : User) : Prop := {
  acc_receiverId : receiverId data = Some rid;
  acc_rid_nonempty : rid ≠ "";
  acc_text : text_ data = Some txt;
  acc_trim_nonempty : trim txt ≠ "";
  acc_length : String.length (trim txt) ≤ maxlength;
  acc_receiver_known : users w !! rid = Some ru;
  acc_sender_known : users w !! socket_userId socket = Some su
}.


(** The document an accepted send stores first, and the [messageData]
    snapshot taken of it. *)
Definition sent_doc (socket : Socket) (rid txt : string) (now : Time) : Message :=
  new_Message (socket_userId socket) rid (trim txt) now.

Definition sent_data (socket : Socket) (rid txt : string) (su ru : User)
    (i : MsgId) (now : Time) : MessageData :=
  {| md_id := i; md_text := trim txt;
     md_sender := mkUserRef (socket_userId socket) (username su);
     md_receiver := mkUserRef rid (username ru);
     md_delivered := false; md_read := false; md_createdAt := now |}.

(** An [error] event, on whichever connection. *)
Definition emits_error (e : Effect) : Prop :=
  match e with
  | SocketEmit _ (error _) | IoToEmit _ (error _) | BroadcastEmit _ (error _) =>
      True
  | _ => False
  end.

(** ** A small scenario for concrete runs *)

Definition alice_s1 : Socket := mkSocket "s1" "alice" "Alice".
Definition alice_s2 : Socket := mkSocket "s2" "alice" "Alice".
Definition bob_s3 : Socket := mkSocket "s3" "bob" "Bob".
Definition carol_s4 : Socket := mkSocket "s4" "carol" "Carol".

Definition directory : gmap string User :=
  <["alice" := mkUser "Alice" false 0]>
    (<["bob" := mkUser "Bob" false 0]>
       (<["carol" := mkUser "Carol" false 0]> ∅)).

Definition world0 : World := mkWorld ∅ ∅ directory [].

Definition hi_to (rid : string) : SendData := mkSendData (Some rid) (Some "hi").

Fixpoint repeat_char (c : ascii) (n : nat) : string :=
  match n with
  | 0 => EmptyString
  | S n' => String c (repeat_char c n')
  end.

Definition oversized_text : string := repeat_char "a"%char 1001.

(** The strings that stand for ObjectIds in the scenario; any other
    string, such as ["status"] or ["not-an-id"], does not cast. *)
Definition scenario_ids : ObjectIds :=
  λ s, bool_decide (s ∈ ["alice"; "bob"; "carol"; "dave"; "erin"]).

(** ** The user routes ([routes/users.js]) *)

(** The [user] object of a response. The directory modelled here carries no
    e-mail address, so the [email] field of [GET /users/:id] is left out. *)
Record UserView := mkUserView {
  uv_id : UserId;
  uv_username : string;
  uv_isOnline : bool;
  uv_lastSeen : Time
}.

Definition view_of (u : UserId) (doc : User) : UserView :=
  mkUserView u (username doc) (isOnline doc) (lastSeen doc).

Inductive UsersData :=
| NoUsersData
| Profile (user : UserView) (unreadCount : nat)
| StatusOf (user : UserView).

Record UsersResponse := mkUsersResponse {
  u_status : nat;
  u_success : bool;
  u_message : option string;
  u_data : UsersData
}.

(** [Message.countDocuments({ sender, receiver, read: false })] *)
Definition Message_countUnread (senderId receiverId : UserId) : Handler nat :=
  gets (λ w, count_where (unread_from senderId receiverId) (messages w)).

(** [GET /users/:id] for the authenticated user [me]. *)
Definition get_user (me : UserId) (userId : string) : Handler UsersResponse :=
  try_catch
    (user ← User_findById userId;
     match user with
     | None =>
         mret (mkUsersResponse 404 false (Some "User not found") NoUsersData)
     | Some user =>
         unreadCount ← Message_countUnread userId me;
         mret (mkUsersResponse 200 true None
                 (Profile (view_of userId user) unreadCount))
     end)
    (λ e,
       match e with
       | CastError =>
           mret (mkUsersResponse 400 false (Some "Invalid user ID") NoUsersData)
       | _ =>
           mret (mkUsersResponse 500 false
                   (Some "Server error while fetching user") NoUsersData)
       end).

(** [PUT /users/status]: [findByIdAndUpdate(..., { new: true })] yields the
    updated document, or [null] for an id the collection does not hold, in
    which case reading [user._id] throws and the route answers 500. *)
Definition put_user_status (me : UserId) (isOnline_ : option bool) (now : Time)
    : Handler UsersResponse :=
  try_catch
    (User_findByIdAndUpdate me (default true isOnline_) now;;
     user ← User_byObjectId me;
     match user with
     | Some user =>
         mret (mkUsersResponse 200 true (Some "Status updated successfully")
                 (StatusOf (view_of me user)))
     | None => throw TypeError
     end)
    (λ _, mret (mkUsersResponse 500 false
                  (Some "Server error while updating status") NoUsersData)).

(** ** Further notions used in the statements *)

(** Every effect of a handler satisfies [Q]. *)
Definition emits_only {A} (Q : Effect → Prop) (h : Handler A) : Prop :=
  ∀ w, Forall Q (trace (h w)).

(** An insertion into the Message collection is of a document that passed
    the schema and still has its defaults. *)
Definition inserts_fresh (e : Effect) : Prop :=
  match e with
  | Stored (InsertMessage doc) =>
      validate doc = [] ∧ delivered doc = false ∧ read doc = false
      ∧ readAt doc = None ∧ deliveredAt doc = None
  | _ => True
  end.

Definition is_emit (e : Effect) : Prop :=
  match e with
  | Stored _ => False
  | _ => True
  end.

(** The text of a stored message is not empty and within [maxlength]. *)
Definition valid_text (m : Message) : Prop :=
  text m ≠ "" ∧ String.length (text m) ≤ maxlength.

(** A flag is set exactly when its timestamp is. *)
Definition well_stamped (m : Message) : Prop :=
  (delivered m = true ↔ is_Some (deliveredAt m))
  ∧ (read m = true ↔ is_Some (readAt m)).

(** The connection a live-channel request arrives on. *)
Definition request_socket (req : Request) : option Socket :=
  match req with
  | Connection s | MessageSend s _ | TypingStart s _ | TypingStop s _
  | MessageRead s _ _ | ConversationRead s _ | StatusUpdate s _
  | Disconnect s => Some s
  | _ => None
  end.

(** Requests arrive on connections whose user is the one the
    authentication middleware attached to that connection id. *)
Definition owned (owner : SocketId → UserId) (req : Request) : Prop :=
  match request_socket req with
  | Some s => socket_userId s = owner (socket_id s)
  | None => True
  end.

(** Every entry of [activeUsers] has its reverse entry in [userSockets],
    and [userSockets] maps a connection to its owner. *)
Definition registry_consistent (owner : SocketId → UserId) (w : World) : Prop :=
  (∀ u sid, activeUsers w !! u = Some sid → userSockets w !! sid = Some u)
  ∧ (∀ sid u, userSockets w !! sid = Some u → u = owner sid).

(** A request that can add a document to the Message collection. *)
Definition is_send (req : Request) : bool :=
  match req with
  | MessageSend _ _ | PostMessage _ _ => true
  | _ => false
  end.

(** Whether user [u] is registered after the requests [reqs], given
    whether [u] was registered before: decided by the last request that
    connects or disconnects a connection of [u]. *)
Fixpoint last_registration (u : UserId) (reqs : list (Time * Request))
    (before : bool) : bool :=
  match reqs with
  | [] => before
  | (_, Connection s) :: reqs' =>
      last_registration u reqs'
        (if decide (socket_userId s = u) then true else before)
  | (_, Disconnect s) :: reqs' =>
      last_registration u reqs'
        (if decide (socket_userId s = u) then false else before)
  | _ :: reqs' => last_registration u reqs' before
  end.

(** An effect other than the [save()] that follows a live push. *)
Definition not_save_delivered (e : Effect) : Prop :=
  match e with
  | Stored (SaveDelivered _ _) => False
  | _ => True
  end.

(** [m'] is [m] with its delivery state as it was. *)
Definition delivery_kept (m m' : Message) : Prop :=
  delivered m' = delivered m ∧ deliveredAt m' = deliveredAt m.

End Server.

(** * Properties *)

Section Properties.

Context `{ids : ObjectIds}.

(** ** Sanity checks of the embedding on concrete inputs *)

Example trim_keeps_inner_space : trim "  a b  " = "a b".
Proof. reflexivity. Qed.

Example trim_blank : trim (String (ascii_of_nat 9) "   ") = "".
Proof. reflexivity. Qed.

Example validate_hi : validate (new_Message "alice" "bob" "hi" 1) = [].
Proof. reflexivity. Qed.

(** ** The store: every write is monotone on the delivery flags *)

Section StoreMonotone.

Implicit Types (m : Message) (ms : list Message) (op : StoreOp).

Lemma not_regressed_refl m : not_regressed m m.
Proof. repeat split; auto. Qed.

Lemma not_regressed_trans m1 m2 m3 :
  not_regressed m1 m2 → not_regressed m2 m3 → not_regressed m1 m3.
Proof.
  intros (?&?&?&?&?&?) (?&?&?&?&?&?).
  repeat split; try congruence; auto.
Qed.

Lemma not_regressed_set_delivered now m : not_regressed m (set_delivered now m).
Proof. repeat split; auto. Qed.

Lemma not_regressed_set_read now m : not_regressed m (set_read now m).
Proof. repeat split; auto. Qed.

Lemma store_monotone_refl ms : store_monotone ms ms.
Proof. intros i m Hi. exists m. split; [done | apply not_regressed_refl]. Qed.

Lemma store_monotone_trans ms1 ms2 ms3 :
  store_monotone ms1 ms2 → store_monotone ms2 ms3 → store_monotone ms1 ms3.
Proof.
  intros H12 H23 i m Hi.
  destruct (H12 i m Hi) as (m2 & Hi2 & Hle2).
  destruct (H23 i m2 Hi2) as (m3 & Hi3 & Hle3).
  exists m3. split; [done | by eapply not_regressed_trans].
Qed.

Lemma store_monotone_alter (f : Message → Message) j ms :
  (∀ m, not_regressed m (f m)) → store_monotone ms (alter f j ms).
Proof.
  intros Hf i m Hi. destruct (decide (i = j)) as [->|Hne].
  - exists (f m). split; [| apply Hf].
    rewrite list_lookup_alter_eq. by rewrite Hi.
  - exists m. split; [| apply not_regressed_refl].
    rewrite list_lookup_alter_ne; [done | congruence].
Qed.

Lemma store_monotone_update_where (p : Message → bool) (f : Message → Message) ms :
  (∀ m, not_regressed m (f m)) → store_monotone ms (update_where p f ms).
Proof.
  intros Hf i m Hi. unfold update_where. rewrite list_lookup_fmap, Hi. simpl.
  eexists. split; [done |].
  destruct (p m); [apply Hf | apply not_regressed_refl].
Qed.

Lemma apply_messages_monotone op ms : store_monotone ms (apply_messages op ms).
Proof.
  destruct op; simpl.
  - intros i m Hi. exists m. split; [| apply not_regressed_refl].
    by apply lookup_app_l_Some.
  - apply store_monotone_alter, not_regressed_set_delivered.
  - apply store_monotone_alter, not_regressed_set_read.
  - apply store_monotone_update_where, not_regressed_set_read.
  - apply store_monotone_update_where, not_regressed_set_delivered.
  - apply store_monotone_refl.
Qed.

(** Any interleaving of the writes of any handlers is monotone. *)
Lemma replay_monotone ops ms : store_monotone ms (replay ops ms).
Proof.
  revert ms. induction ops as [|op ops IH]; intros ms; simpl.
  - apply store_monotone_refl.
  - eapply store_monotone_trans; [apply apply_messages_monotone | apply IH].
Qed.

Lemma replay_app ops1 ops2 ms :
  replay (ops1 ++ ops2) ms = replay ops2 (replay ops1 ms).
Proof. unfold replay. by rewrite foldl_app. Qed.

End StoreMonotone.

(** ** Handlers reach the Message collection only through recorded writes *)

Section WritesThrough.

Lemma stored_ops_app t1 t2 :
  stored_ops (t1 ++ t2) = stored_ops t1 ++ stored_ops t2.
Proof. apply omap_app. Qed.

Lemma writes_through_ret {A} (a : A) : writes_through (mret a : Handler A).
Proof. by intros w. Qed.

Lemma writes_through_throw {A} e : writes_through (throw e : Handler A).
Proof. by intros w. Qed.

Lemma writes_through_gets {A} (f : World → A) : writes_through (gets f).
Proof. by intros w. Qed.

Lemma writes_through_modify (f : World → World) :
  (∀ w, messages (f w) = messages w) → writes_through (modify f).
Proof. intros Hf w. simpl. apply Hf. Qed.

Lemma writes_through_effect e :
  stored_ops [e] = [] → writes_through (effect e).
Proof. intros He w. unfold trace, final_world, effect. cbn [fst snd]. by rewrite He. Qed.

Lemma writes_through_store op : writes_through (store op).
Proof. by intros w. Qed.

Lemma writes_through_bind {A B} (m : Handler A) (f : A → Handler B) :
  writes_through m → (∀ a, writes_through (f a)) → writes_through (m ≫= f).
Proof.
  intros Hm Hf w. specialize (Hm w).
  unfold mbind, Handler_bind, final_world, trace in *.
  destruct (m w) as [[[a|e] w1] t1]; simpl in *; [| done].
  specialize (Hf a w1). unfold final_world, trace in Hf.
  destruct (f a w1) as [[r w2] t2]; simpl in *.
  by rewrite stored_ops_app, replay_app, <- Hm.
Qed.

Lemma writes_through_try_catch {A} (body : Handler A) (handler : Exn → Handler A) :
  writes_through body → (∀ e, writes_through (handler e)) →
  writes_through (try_catch body handler).
Proof.
  intros Hb Hh w. specialize (Hb w).
  unfold try_catch, final_world, trace in *.
  destruct (body w) as [[[a|e] w1] t1]; simpl in *; [done |].
  specialize (Hh e w1). unfold final_world, trace in Hh.
  destruct (handler e w1) as [[r w2] t2]; simpl in *.
  by rewrite stored_ops_app, replay_app, <- Hb.
Qed.

End WritesThrough.

Ltac writes_through :=
  repeat first
    [ apply writes_through_ret
    | apply writes_through_throw
    | apply writes_through_gets
    | apply writes_through_store
    | apply writes_through_effect; reflexivity
    | apply writes_through_modify; reflexivity
    | apply writes_through_bind
    | apply writes_through_try_catch
    | intros ?
    | case_match ].

Lemma handle_writes_through now req : writes_through (handle now req).
Proof.
  destruct req; unfold handle, silently, responding.
  - unfold on_connection, activeUsers_set, userSockets_set,
      User_findByIdAndUpdate, broadcast_emit. writes_through.
  - unfold on_message_send, Message_create, messageData, User_findById,
      activeUsers_get, socket_emit, io_to_emit. writes_through.
  - unfold on_typing_start, activeUsers_get, io_to_emit. writes_through.
  - unfold on_typing_stop, activeUsers_get, io_to_emit. writes_through.
  - unfold on_message_read, Message_findByIdAndUpdate_read, Message_findById,
      activeUsers_get, io_to_emit. writes_through.
  - unfold on_conversation_read, Message_markAsRead, activeUsers_get,
      io_to_emit. writes_through.
  - unfold on_status_update, User_findByIdAndUpdate, broadcast_emit.
    writes_through.
  - unfold on_disconnect, activeUsers_delete, userSockets_delete,
      User_findByIdAndUpdate, broadcast_emit. writes_through.
  - unfold get_conversation_messages, Message_markAsDelivered, User_findById.
    writes_through.
  - unfold post_message, Message_create, messageData, User_findById.
    writes_through.
  - unfold put_message_read, Message_findById. writes_through.
  - unfold put_conversation_read, Message_markAsRead, User_findById.
    writes_through.
Qed.

Lemma handle_monotone now req w :
  store_monotone (messages w) (messages (final_world (handle now req w))).
Proof. rewrite handle_writes_through. apply replay_monotone. Qed.

(** [C1] Delivery state never regresses. Whatever requests the server handles
    after a message is in the store (live deliveries, mark-read over the
    live channel or REST, conversation-wide mark-read, fetches that mark
    messages delivered, and every other request), the message is still
    there, is still the same message, and a [delivered] or [read] flag that
    was [true] is still [true]. *)
Theorem delivery_state_never_regresses (reqs : list (Time * Request))
    (w : World) (i : MsgId) (m : Message) :
  messages w !! i = Some m →
  ∃ m', messages (run reqs w) !! i = Some m'
        ∧ sender m' = sender m ∧ receiver m' = receiver m
        ∧ text m' = text m
        ∧ (delivered m = true → delivered m' = true)
        ∧ (read m = true → read m' = true).
Proof.
  revert w m. induction reqs as [|[now req] reqs IH]; intros w m Hi; simpl.
  - exists m. by repeat split.
  - destruct (handle_monotone now req w i m Hi) as (m1 & Hi1 & H1).
    destruct (IH _ m1 Hi1) as (m2 & Hi2 & Hs & Hr & Ht & Hd & Hrd).
    destruct H1 as (Hs1 & Hr1 & Ht1 & _ & Hd1 & Hrd1).
    exists m2. repeat split; try congruence; auto.
Qed.

(** ** The connection registry *)

Section Preserves.

Context {B : Type} (proj : World → B).

Lemma preserves_ret {A} (a : A) : preserves proj (mret a : Handler A).
Proof. by intros w. Qed.

Lemma preserves_throw {A} e : preserves proj (throw e : Handler A).
Proof. by intros w. Qed.

Lemma preserves_gets {A} (f : World → A) : preserves proj (gets f).
Proof. by intros w. Qed.

Lemma preserves_effect e : preserves proj (effect e).
Proof. by intros w. Qed.

Lemma preserves_modify (f : World → World) :
  (∀ w, proj (f w) = proj w) → preserves proj (modify f).
Proof. intros Hf w. apply Hf. Qed.

Lemma preserves_store op :
  (∀ w, proj (apply_op op w) = proj w) → preserves proj (store op).
Proof. intros Hf w. apply Hf. Qed.

Lemma preserves_bind {A C} (m : Handler A) (f : A → Handler C) :
  preserves proj m → (∀ a, preserves proj (f a)) → preserves proj (m ≫= f).
Proof.
  intros Hm Hf w. specialize (Hm w).
  unfold mbind, Handler_bind, final_world in *.
  destruct (m w) as [[[a|e] w1] t1]; simpl in *; [| done].
  specialize (Hf a w1). unfold final_world in Hf.
  destruct (f a w1) as [[r w2] t2]; simpl in *. congruence.
Qed.

Lemma preserves_try_catch {A} (body : Handler A) (handler : Exn → Handler A) :
  preserves proj body → (∀ e, preserves proj (handler e)) →
  preserves proj (try_catch body handler).
Proof.
  intros Hb Hh w. specialize (Hb w).
  unfold try_catch, final_world in *.
  destruct (body w) as [[[a|e] w1] t1]; simpl in *; [done |].
  specialize (Hh e w1). unfold final_world in Hh.
  destruct (handler e w1) as [[r w2] t2]; simpl in *. congruence.
Qed.

End Preserves.

Ltac preserves :=
  repeat first
    [ apply preserves_ret
    | apply preserves_throw
    | apply preserves_gets
    | apply preserves_effect
    | apply preserves_store; reflexivity
    | apply preserves_modify; reflexivity
    | apply preserves_bind
    | apply preserves_try_catch
    | intros ?
    | case_match ].

(** Only connecting and disconnecting write to [activeUsers]. *)
Lemma handle_preserves_activeUsers now req :
  match req with
  | Connection _ | Disconnect _ => True
  | _ => preserves activeUsers (handle now req)
  end.
Proof.
  destruct req; try exact I; unfold handle, silently, responding.
  - unfold on_message_send, Message_create, messageData, User_findById,
      activeUsers_get, socket_emit, io_to_emit. preserves.
  - unfold on_typing_start, activeUsers_get, io_to_emit. preserves.
  - unfold on_typing_stop, activeUsers_get, io_to_emit. preserves.
  - unfold on_message_read, Message_findByIdAndUpdate_read, Message_findById,
      activeUsers_get, io_to_emit. preserves.
  - unfold on_conversation_read, Message_markAsRead, activeUsers_get,
      io_to_emit. preserves.
  - unfold on_status_update, User_findByIdAndUpdate, broadcast_emit.
    preserves.
  - unfold get_conversation_messages, Message_markAsDelivered, User_findById.
    preserves.
  - unfold post_message, Message_create, messageData, User_findById.
    preserves.
  - unfold put_message_read, Message_findById. preserves.
  - unfold put_conversation_read, Message_markAsRead, User_findById.
    preserves.
Qed.

Lemma handle_activeUsers now req w :
  activeUsers (final_world (handle now req w)) =
  match req with
  | Connection s => <[socket_userId s := socket_id s]> (activeUsers w)
  | Disconnect s => delete (socket_userId s) (activeUsers w)
  | _ => activeUsers w
  end.
Proof.
  pose proof (handle_preserves_activeUsers now req) as H.
  destruct req; try apply H; reflexivity.
Qed.

(** The mapping of a user changes only when a connection of that very user
    is registered or unregistered. *)
Lemma run_keeps_registration (reqs : list (Time * Request)) (w : World)
    (u : UserId) :
  Forall (λ tr, ¬ touches_registration u tr.2) reqs →
  activeUsers (run reqs w) !! u = activeUsers w !! u.
Proof.
  revert w. induction reqs as [|[now req] reqs IH]; intros w Hall; [done |].
  apply Forall_cons in Hall as [Hreq Hall]. simpl in *.
  rewrite IH by done. rewrite handle_activeUsers.
  destruct req; simpl in Hreq; try done.
  - by rewrite lookup_insert_ne.
  - by rewrite lookup_delete_ne.
Qed.

(** [C5] Last connect wins. When a user who already holds a registered
    connection connects again, the handler completes without an error, the
    mapping of that user is replaced by the new connection, and from then on
    the registry resolves the user to the new connection, for as long as no
    connection of that user is registered or unregistered. The disconnect
    of any connection of that user ends this, the disconnect of the
    replaced connection included: after it the registry resolves the user
    to nothing, whichever connection closed. *)
Theorem reconnect_replaces_mapping (socket : Socket) (now : Time) (w : World)
    (old : SocketId) (reqs : list (Time * Request)) :
  activeUsers w !! socket_userId socket = Some old →
  Forall (λ tr, ¬ touches_registration (socket_userId socket) tr.2) reqs →
  let r := on_connection socket now w in
  outcome r = Returned tt
  ∧ trace r = [Stored (UpdatePresence (socket_userId socket) true now);
               BroadcastEmit (socket_id socket)
                 (user_online (socket_userId socket) (socket_username socket))]
  ∧ activeUsers (final_world r)
    = <[socket_userId socket := socket_id socket]> (activeUsers w)
  ∧ activeUsers (final_world r) !! socket_userId socket = Some (socket_id socket)
  ∧ activeUsers (run reqs (final_world r)) !! socket_userId socket
    = Some (socket_id socket)
  ∧ isUserOnline (run reqs (final_world r)) (socket_userId socket) = true
  ∧ (∀ closing t,
       socket_userId closing = socket_userId socket →
       activeUsers (final_world (on_disconnect closing t
                                   (run reqs (final_world r))))
         !! socket_userId socket = None).
Proof.
  intros Hold Hreqs r.
  assert (Hnew : activeUsers (final_world r) !! socket_userId socket
                 = Some (socket_id socket)).
  { subst r. simpl. apply lookup_insert_eq. }
  assert (Hlater : activeUsers (run reqs (final_world r)) !! socket_userId socket
                   = Some (socket_id socket)).
  { by rewrite run_keeps_registration. }
  do 5 (split; [done |]). split.
  - unfold isUserOnline. rewrite Hlater. by apply bool_decide_eq_true_2.
  - intros closing t Hsame. simpl. rewrite Hsame. apply lookup_delete_eq.
Qed.

(** [C3] What the disconnect handler does to the registry. It deletes the
    entry of the disconnecting connection's owner from [activeUsers]
    whichever connection that entry names, and deletes the disconnecting
    connection's own entry from [userSockets]; the entries of other users
    stay as they were. *)
Theorem disconnect_unregisters_unconditionally (socket : Socket) (now : Time)
    (w : World) :
  let r := on_disconnect socket now w in
  activeUsers (final_world r) = delete (socket_userId socket) (activeUsers w)
  ∧ userSockets (final_world r) = delete (socket_id socket) (userSockets w)
  ∧ activeUsers (final_world r) !! socket_userId socket = None
  ∧ (∀ u, u ≠ socket_userId socket →
          activeUsers (final_world r) !! u = activeUsers w !! u)
  ∧ trace r = [Stored (UpdatePresence (socket_userId socket) false now);
               BroadcastEmit (socket_id socket)
                 (user_offline (socket_userId socket) (socket_username socket) now)].
Proof.
  simpl. repeat split.
  - apply lookup_delete_eq.
  - intros u Hu. by rewrite lookup_delete_ne.
Qed.

(** ** Running a handler step by step *)

Section Stepping.

Context {A B : Type}.
Implicit Types (f : A → Handler B) (w : World).

Lemma run_bind_ret (a : A) f w : (mret a ≫= f) w = f a w.
Proof.
  unfold mbind, Handler_bind, mret, Handler_ret.
  by destruct (f a w) as [[r w2] t2].
Qed.

Lemma run_bind_gets (g : World → A) f w : (gets g ≫= f) w = f (g w) w.
Proof.
  unfold mbind, Handler_bind, gets.
  by destruct (f (g w) w) as [[r w2] t2].
Qed.

Lemma run_bind_throw e f w : (throw e ≫= f) w = (Thrown e, w, []).
Proof. reflexivity. Qed.

Lemma run_bind_bind {C} (m : Handler C) (g : C → Handler A) f w :
  ((m ≫= g) ≫= f) w = (m ≫= λ c, g c ≫= f) w.
Proof.
  unfold mbind, Handler_bind.
  destruct (m w) as [[[c|e] w1] t1]; [| done].
  destruct (g c w1) as [[[a|e] w2] t2]; [| done].
  destruct (f a w2) as [[r w3] t3]. by rewrite app_assoc.
Qed.

End Stepping.

Section SteppingUnit.

Context {B : Type}.
Implicit Types (f : unit → Handler B) (w : World).

Lemma run_bind_effect e f w : (effect e ≫= f) w = prepend [e] (f tt w).
Proof.
  unfold mbind, Handler_bind, effect, prepend.
  by destruct (f tt w) as [[r w2] t2].
Qed.

Lemma run_bind_store op f w :
  (store op ≫= f) w = prepend [Stored op] (f tt (apply_op op w)).
Proof.
  unfold mbind, Handler_bind, store, prepend.
  by destruct (f tt (apply_op op w)) as [[r w2] t2].
Qed.

Lemma run_bind_modify (g : World → World) f w :
  (modify g ≫= f) w = f tt (g w).
Proof.
  unfold mbind, Handler_bind, modify.
  by destruct (f tt (g w)) as [[r w2] t2].
Qed.

End SteppingUnit.

Section SteppingFind.

Context {B : Type}.
Implicit Types (f : option User → Handler B) (w : World).

Lemma casts_known u d w : users w !! u = Some d → casts w u = true.
Proof. intros Hu. unfold casts. by rewrite Hu. Qed.

Lemma casts_unknown u w : users w !! u = None → casts w u = castable u.
Proof. intros Hu. unfold casts. by rewrite Hu. Qed.

Lemma run_findById_known u d f w :
  users w !! u = Some d → (User_findById u ≫= f) w = f (Some d) w.
Proof.
  intros Hu. unfold User_findById.
  rewrite run_bind_bind, run_bind_gets, (casts_known _ _ _ Hu).
  by rewrite run_bind_gets, Hu.
Qed.

Lemma run_findById_unknown u f w :
  users w !! u = None → castable u = true →
  (User_findById u ≫= f) w = f None w.
Proof.
  intros Hu Hc. unfold User_findById.
  rewrite run_bind_bind, run_bind_gets, (casts_unknown _ _ Hu), Hc.
  by rewrite run_bind_gets, Hu.
Qed.

Lemma run_findById_malformed u f w :
  users w !! u = None → castable u = false →
  (User_findById u ≫= f) w = (Thrown CastError, w, []).
Proof.
  intros Hu Hc. unfold User_findById.
  rewrite run_bind_bind, run_bind_gets, (casts_unknown _ _ Hu), Hc.
  by rewrite run_bind_throw.
Qed.

End SteppingFind.

Ltac step :=
  first
    [ rewrite run_bind_bind
    | rewrite run_bind_ret
    | rewrite run_bind_gets
    | rewrite run_bind_throw
    | rewrite run_bind_effect
    | rewrite run_bind_store
    | rewrite run_bind_modify ];
  cbv beta iota.

(** ** The send handler on an accepted request *)

Lemma trim_empty : trim "" = "".
Proof. reflexivity. Qed.

Lemma validate_accepted (s r t : string) (now : Time) :
  t ≠ "" → String.length t ≤ maxlength → validate (new_Message s r t now) = [].
Proof.
  intros Ht Hlen. unfold validate. simpl.
  rewrite bool_decide_eq_false_2 by done.
  destruct (decide (maxlength < String.length t)); [lia | done].
Qed.

Lemma length_zero_empty (t : string) : String.length t = 0 ↔ t = "".
Proof. destruct t; simpl; split; intros H; try done. Qed.

Section AcceptedSend.

Context (socket : Socket) (data : SendData) (now : Time) (w : World)
        (rid txt : string) (su ru : User).
Hypothesis Hacc : accepted_send socket data w rid txt su ru.

Local Abbreviation doc := (sent_doc socket rid txt now).
Local Abbreviation i := (length (messages w)).
Local Abbreviation d := (sent_data socket rid txt su ru (length (messages w)) now).

Lemma send_to_online (rsid : SocketId) :
  activeUsers w !! rid = Some rsid → rsid ≠ "" →
  on_message_send socket data now w =
  (Returned tt,
   apply_op (SaveDelivered i now) (apply_op (InsertMessage doc) w),
   [Stored (InsertMessage doc);
    IoToEmit rsid (message_new d false);
    Stored (SaveDelivered i now);
    SocketEmit (socket_id socket)
      (message_sent (override_delivered d true) true)]).
Proof.
  intros Hreg Hrsid. destruct Hacc as [Hr Hrne Ht Htrim Hlen Hru Hsu].
  assert (txt ≠ "") as Htne by (intros ->; by rewrite trim_empty in Htrim).
  unfold on_message_send, try_catch.
  rewrite Hr, Ht. cbn [falsy str default from_option id].
  rewrite !bool_decide_eq_false_2 by (done || by rewrite length_zero_empty).
  cbn [orb].
  rewrite (run_findById_known _ _ _ _ Hru). cbv beta iota.
  unfold Message_create. rewrite validate_accepted by done.
  unfold User_byObjectId. repeat step.
  change (users (apply_op (InsertMessage ?x) w)) with (users w).
  cbn [sender receiver new_Message]. rewrite Hru, Hsu.
  unfold messageData. step. unfold activeUsers_get. step.
  change (activeUsers (apply_op (InsertMessage ?x) w)) with (activeUsers w).
  rewrite Hreg. cbn [falsy str default from_option id negb].
  rewrite bool_decide_eq_false_2 by done. cbn [negb].
  unfold io_to_emit, socket_emit. repeat step.
  reflexivity.
Qed.

Lemma send_to_offline :
  falsy (activeUsers w !! rid) = true →
  on_message_send socket data now w =
  (Returned tt,
   apply_op (InsertMessage doc) w,
   [Stored (InsertMessage doc);
    SocketEmit (socket_id socket) (message_sent d true)]).
Proof.
  intros Hreg. destruct Hacc as [Hr Hrne Ht Htrim Hlen Hru Hsu].
  assert (txt ≠ "") as Htne by (intros ->; by rewrite trim_empty in Htrim).
  unfold on_message_send, try_catch.
  rewrite Hr, Ht. cbn [falsy str default from_option id].
  rewrite !bool_decide_eq_false_2 by (done || by rewrite length_zero_empty).
  cbn [orb].
  rewrite (run_findById_known _ _ _ _ Hru). cbv beta iota.
  unfold Message_create. rewrite validate_accepted by done.
  unfold User_byObjectId. repeat step.
  change (users (apply_op (InsertMessage ?x) w)) with (users w).
  cbn [sender receiver new_Message]. rewrite Hru, Hsu.
  unfold messageData. step. unfold activeUsers_get. step.
  change (activeUsers (apply_op (InsertMessage ?x) w)) with (activeUsers w).
  rewrite Hreg. cbn [negb].
  unfold socket_emit. repeat step.
  reflexivity.
Qed.

End AcceptedSend.

Lemma stored_after_insert (f : Message → Message) (ms : list Message)
    (doc : Message) :
  alter f (length ms) (ms ++ [doc]) !! length ms = Some (f doc).
Proof. rewrite list_lookup_alter_eq. by rewrite list_lookup_middle. Qed.

(** [C4] An accepted send over the live channel. If the receiver has a
    registered live connection, the handler does exactly this, in this
    order: it saves the new message, pushes [message:new] to the receiver's
    connection, saves the message as delivered, and only then emits
    [message:sent] to the sender, with [delivered = true]; the stored
    message is delivered. If the receiver has no registered connection, the
    handler saves the message and emits [message:sent] with
    [delivered = false]; nothing is pushed to anyone else and the stored
    message is not delivered. *)
Theorem live_send_delivers_before_ack (socket : Socket) (data : SendData)
    (now : Time) (w : World) (rid txt : string) (su ru : User) :
  accepted_send socket data w rid txt su ru →
  let r := on_message_send socket data now w in
  let i := length (messages w) in
  let doc := new_Message (socket_userId socket) rid (trim txt) now in
  (∀ rsid, activeUsers w !! rid = Some rsid → rsid ≠ "" →
     ∃ pushed acked,
          trace r =
            [Stored (InsertMessage doc);
             IoToEmit rsid (message_new pushed false);
             Stored (SaveDelivered i now);
             SocketEmit (socket_id socket) (message_sent acked true)]
          ∧ md_id pushed = i ∧ md_text pushed = trim txt
          ∧ md_id acked = i ∧ md_text acked = trim txt
          ∧ md_delivered acked = true
          ∧ messages (final_world r) !! i = Some (set_delivered now doc)
          ∧ delivered (set_delivered now doc) = true)
  ∧ (activeUsers w !! rid = None →
     ∃ d, trace r =
            [Stored (InsertMessage doc);
             SocketEmit (socket_id socket) (message_sent d true)]
          ∧ md_id d = i ∧ md_text d = trim txt
          ∧ md_delivered d = false
          ∧ messages (final_world r) !! i = Some doc
          ∧ delivered doc = false).
Proof.
  intros Hacc r i doc. split.
  - intros rsid Hreg Hne. subst r.
    rewrite (send_to_online _ _ now _ _ _ _ _ Hacc rsid Hreg Hne).
    do 2 eexists. split; [reflexivity |].
    repeat split. cbn. apply stored_after_insert.
  - intros Hreg. subst r.
    rewrite (send_to_offline _ _ now _ _ _ _ _ Hacc) by (by rewrite Hreg).
    eexists. split; [reflexivity |].
    repeat split. cbn. apply list_lookup_middle. done.
Qed.

(** [C10] The push is a snapshot taken before the delivered transition. On
    an accepted live-channel send to a receiver with a registered
    connection, a [message:new] event is pushed to that connection, every
    [message:new] the handler pushes carries [delivered = false] and
    [isFromMe = false], while the sender's [message:sent] carries
    [delivered = true] and the message in the store is delivered when the
    handler is done. *)
Theorem message_new_is_undelivered_snapshot (socket : Socket) (data : SendData)
    (now : Time) (w : World) (rid txt : string) (su ru : User)
    (rsid : SocketId) :
  accepted_send socket data w rid txt su ru →
  activeUsers w !! rid = Some rsid → rsid ≠ "" →
  let r := on_message_send socket data now w in
  (∃ d, IoToEmit rsid (message_new d false) ∈ trace r)
  ∧ (∀ sid d b, IoToEmit sid (message_new d b) ∈ trace r →
       sid = rsid ∧ md_id d = length (messages w)
       ∧ md_delivered d = false ∧ b = false)
  ∧ (∃ d, SocketEmit (socket_id socket) (message_sent d true) ∈ trace r)
  ∧ (∀ sid d b, SocketEmit sid (message_sent d b) ∈ trace r →
       md_id d = length (messages w) ∧ md_delivered d = true)
  ∧ delivered <$> messages (final_world r) !! length (messages w) = Some true.
Proof.
  intros Hacc Hreg Hne r. subst r.
  rewrite (send_to_online _ _ now _ _ _ _ _ Hacc rsid Hreg Hne).
  unfold trace, final_world. cbn [fst snd].
  split; [eexists; apply list_elem_of_further, list_elem_of_here |].
  split.
  { intros sid d b Hin.
    repeat (apply elem_of_cons in Hin as [Hin | Hin]; try discriminate Hin).
    - by inversion Hin.
    - by apply elem_of_nil in Hin. }
  split; [eexists; do 3 apply list_elem_of_further; apply list_elem_of_here |].
  split.
  { intros sid d b Hin.
    repeat (apply elem_of_cons in Hin as [Hin | Hin]; try discriminate Hin).
    - by inversion Hin.
    - by apply elem_of_nil in Hin. }
  cbn. by rewrite stored_after_insert.
Qed.

(** ** Read receipts *)

Section MarkAsRead.

Context (s r : UserId).

Lemma unread_from_set_read now m : unread_from s r (set_read now m) = false.
Proof. unfold unread_from. simpl. by rewrite andb_false_r. Qed.

Lemma markAsRead_twice now1 now2 ms :
  update_where (unread_from s r) (set_read now2)
    (update_where (unread_from s r) (set_read now1) ms)
  = update_where (unread_from s r) (set_read now1) ms.
Proof.
  unfold update_where. rewrite <- list_fmap_compose.
  apply list_fmap_ext. intros _ m _. simpl.
  destruct (unread_from s r m) eqn:Hm.
  - by rewrite unread_from_set_read.
  - by rewrite Hm.
Qed.

Lemma markAsRead_leaves_none_unread now ms :
  count_where (unread_from s r)
    (update_where (unread_from s r) (set_read now) ms) = 0.
Proof.
  unfold count_where, update_where.
  induction ms as [|m ms IH]; [done |].
  rewrite fmap_cons, filter_cons.
  destruct (unread_from s r m) eqn:Hm.
  - rewrite decide_False; [done |]. by rewrite unread_from_set_read.
  - rewrite decide_False; [done |]. by rewrite Hm.
Qed.

Lemma apply_markAsRead_twice now1 now2 w :
  apply_op (MarkAsRead s r now2) (apply_op (MarkAsRead s r now1) w)
  = apply_op (MarkAsRead s r now1) w.
Proof.
  unfold apply_op, with_users, with_messages. simpl.
  by rewrite markAsRead_twice.
Qed.

Lemma run_markAsRead now w :
  Message_markAsRead s r now w =
  (Returned (count_where (unread_from s r) (messages w)),
   apply_op (MarkAsRead s r now) w,
   [Stored (MarkAsRead s r now)]).
Proof. reflexivity. Qed.

End MarkAsRead.

Lemma run_put_conversation_read me senderId now w :
  put_conversation_read me senderId now w =
  match users w !! senderId with
  | Some _ =>
      (Returned (mkResponse 200 true (Some "Messages marked as read")
                   (Modified (count_where (unread_from senderId me) (messages w)))),
       apply_op (MarkAsRead senderId me now) w,
       [Stored (MarkAsRead senderId me now)])
  | None =>
      (Returned (if castable senderId then failure 404 "User not found"
                 else failure 400 "Invalid user ID"),
       w, [])
  end.
Proof.
  unfold put_conversation_read, try_catch.
  destruct (users w !! senderId) as [d|] eqn:Hu.
  - by rewrite (run_findById_known _ _ _ _ Hu).
  - destruct (castable senderId) eqn:Hc.
    + by rewrite (run_findById_unknown _ _ _ Hu Hc).
    + by rewrite (run_findById_malformed _ _ _ Hu Hc).
Qed.

Lemma casts_apply_op (op : StoreOp) (w : World) (u : string) :
  casts (apply_op op w) u = casts w u.
Proof.
  unfold casts. f_equal.
  destruct op; try reflexivity. simpl.
  apply bool_decide_ext. rewrite lookup_alter.
  case_decide; [subst | done]. by rewrite fmap_is_Some.
Qed.

Lemma run_on_conversation_read socket senderId now w :
  on_conversation_read socket senderId now w =
  if casts w senderId
  then (Returned tt,
        apply_op (MarkAsRead senderId (socket_userId socket) now) w,
        Stored (MarkAsRead senderId (socket_userId socket) now)
        :: (if negb (falsy (activeUsers w !! senderId))
            then [IoToEmit (str (activeUsers w !! senderId))
                    (conversation_read (socket_userId socket) now)]
            else []))
  else (Returned tt, w, []).
Proof.
  unfold on_conversation_read, try_catch, Message_markAsRead, activeUsers_get.
  step. destruct (casts w senderId); [| done].
  repeat step.
  change (activeUsers (apply_op (MarkAsRead ?a ?b ?c) w)) with (activeUsers w).
  by destruct (negb (falsy (activeUsers w !! senderId))).
Qed.

(** [C8] Marking a conversation read twice in succession. The second call
    leaves the world exactly as the first call left it and modifies no
    message: the model's [markAsRead] reports a modified count of zero, the
    REST route answers the second request with [modifiedCount = 0] (or, for
    an unknown sender, with the same 404 as the first, and for a sender id
    that does not cast with the same 400), and the live-channel handler
    changes nothing the second time. *)
Theorem markConversationRead_idempotent (me senderId : UserId)
    (socket : Socket) (now1 now2 : Time) (w : World) :
  (let r1 := Message_markAsRead senderId me now1 w in
   let r2 := Message_markAsRead senderId me now2 (final_world r1) in
   final_world r2 = final_world r1 ∧ outcome r2 = Returned 0)
  ∧ (let r1 := put_conversation_read me senderId now1 w in
     let r2 := put_conversation_read me senderId now2 (final_world r1) in
     final_world r2 = final_world r1
     ∧ outcome r2 =
       Returned (match users w !! senderId with
                 | Some _ => mkResponse 200 true (Some "Messages marked as read")
                               (Modified 0)
                 | None =>
                     if castable senderId then failure 404 "User not found"
                     else failure 400 "Invalid user ID"
                 end))
  ∧ (let r1 := on_conversation_read socket senderId now1 w in
     let r2 := on_conversation_read socket senderId now2 (final_world r1) in
     final_world r2 = final_world r1).
Proof.
  split; [| split]; cbv zeta; unfold final_world, outcome.
  - rewrite (run_markAsRead senderId me now1 w). cbn [fst snd].
    rewrite run_markAsRead. cbn [fst snd].
    split; [apply apply_markAsRead_twice |].
    f_equal. apply markAsRead_leaves_none_unread.
  - rewrite (run_put_conversation_read me senderId now1 w).
    destruct (users w !! senderId) as [u|] eqn:Hu; cbn [fst snd];
      rewrite run_put_conversation_read.
    + change (users (apply_op (MarkAsRead ?a ?b ?c) w)) with (users w).
      rewrite Hu. cbn [fst snd].
      split; [apply apply_markAsRead_twice |].
      do 3 f_equal. apply markAsRead_leaves_none_unread.
    + by rewrite Hu.
  - rewrite (run_on_conversation_read socket senderId now1 w).
    destruct (casts w senderId) eqn:Hc; cbn [fst snd];
      rewrite run_on_conversation_read, ?casts_apply_op, Hc; cbn [fst snd].
    + apply apply_markAsRead_twice.
    + done.
Qed.

Lemma alter_as_insert (f : Message → Message) (i : MsgId) (ms : list Message)
    (m : Message) :
  ms !! i = Some m → alter f i ms = <[i := f m]> ms.
Proof.
  intros Hi. apply list_eq. intros j.
  destruct (decide (i = j)) as [<-|Hne].
  - rewrite list_lookup_alter_eq, Hi.
    rewrite list_lookup_insert_eq; [done |]. by eapply lookup_lt_Some.
  - by rewrite list_lookup_alter_ne, list_lookup_insert_ne.
Qed.

Lemma run_on_message_read socket (i : MsgId) senderId now w :
  on_message_read socket i senderId now w =
  (Returned tt,
   apply_op (UpdateRead i now) w,
   Stored (UpdateRead i now)
   :: match alter (set_read now) i (messages w) !! i with
      | Some m =>
          if negb (falsy (activeUsers w !! senderId))
          then [IoToEmit (str (activeUsers w !! senderId))
                  (message_read i (socket_userId socket) (readAt m))]
          else []
      | None => []
      end).
Proof.
  unfold on_message_read, try_catch, Message_findByIdAndUpdate_read,
    activeUsers_get.
  repeat step.
  change (messages (apply_op (UpdateRead i now) w))
    with (alter (set_read now) i (messages w)).
  destruct (alter (set_read now) i (messages w) !! i); [| done].
  step.
  change (activeUsers (apply_op (UpdateRead i now) w)) with (activeUsers w).
  by destruct (negb (falsy (activeUsers w !! senderId))).
Qed.

Lemma run_put_message_read me (i : MsgId) now w :
  put_message_read me i now w =
  match messages w !! i with
  | None => (Returned (failure 404 "Message not found"), w, [])
  | Some m =>
      if bool_decide (receiver m = me)
      then (Returned (mkResponse 200 true (Some "Message marked as read")
                        (ReadReceipt i true (Some now))),
            apply_op (UpdateRead i now) w,
            [Stored (UpdateRead i now)])
      else (Returned (failure 403 "Not authorized to mark this message as read"),
            w, [])
  end.
Proof.
  unfold put_message_read, try_catch, Message_findById. step.
  destruct (messages w !! i) as [m|]; [| done]. simpl.
  by destruct (bool_decide (receiver m = me)).
Qed.

(** The live-channel handler marks a message read for whoever asks. *)
Lemma live_mark_read_unchecked socket (i : MsgId) senderId now w m :
  messages w !! i = Some m →
  messages (final_world (on_message_read socket i senderId now w))
  = <[i := set_read now m]> (messages w).
Proof.
  intros Hi. rewrite run_on_message_read. unfold final_world. cbn.
  by apply alter_as_insert.
Qed.

(** The REST route refuses whoever is not the receiver. *)
Lemma put_message_read_unauthorized me (i : MsgId) now w m :
  messages w !! i = Some m → receiver m ≠ me →
  put_message_read me i now w =
  (Returned (failure 403 "Not authorized to mark this message as read"), w, []).
Proof.
  intros Hi Hne. rewrite run_put_message_read, Hi.
  by rewrite bool_decide_eq_false_2.
Qed.

(** [C7] Marking an already-read message read again, over the live channel
    or through the REST route as its receiver, is not an error and leaves
    the message read; every field of the message stays as it was except
    the read timestamp and [updatedAt], which are overwritten with the time
    of the new call. No other message changes. *)
Theorem mark_read_again_keeps_flag_refreshes_timestamp (socket : Socket)
    (senderId : UserId) (i : MsgId) (now : Time) (w : World) (m : Message) :
  messages w !! i = Some m → read m = true →
  let live := on_message_read socket i senderId now w in
  let rest := put_message_read (receiver m) i now w in
  let m' := set_read now m in
  (outcome live = Returned tt
   ∧ Forall (λ e, ¬ emits_error e) (trace live)
   ∧ messages (final_world live) = <[i := m']> (messages w))
  ∧ (outcome rest = Returned (mkResponse 200 true (Some "Message marked as read")
                                (ReadReceipt i true (Some now)))
     ∧ messages (final_world rest) = <[i := m']> (messages w))
  ∧ read m' = true ∧ readAt m' = Some now ∧ updatedAt m' = now
  ∧ sender m' = sender m ∧ receiver m' = receiver m ∧ text m' = text m
  ∧ delivered m' = delivered m ∧ deliveredAt m' = deliveredAt m
  ∧ createdAt m' = createdAt m.
Proof.
  intros Hi Hread live rest m'. subst live rest m'.
  split; [| split; [| by repeat split]].
  - split; [by rewrite run_on_message_read |].
    split; [| by apply live_mark_read_unchecked].
    rewrite run_on_message_read. unfold trace. cbn [snd].
    apply Forall_cons. split; [by intros [] |].
    destruct (alter (set_read now) i (messages w) !! i); [| constructor].
    destruct (negb (falsy (activeUsers w !! senderId))); repeat constructor.
    by intros [].
  - rewrite run_put_message_read, Hi.
    rewrite bool_decide_eq_true_2 by done.
    split; [done |]. unfold final_world. cbn. by apply alter_as_insert.
Qed.

(** ** Validation of a send request *)

(** The REST route refuses a message addressed to its own sender. *)
Lemma post_message_self_send (me txt : string) (u : User) (now : Time)
    (w : World) :
  me ≠ "" → trim txt ≠ "" → users w !! me = Some u →
  post_message me (mkSendData (Some me) (Some txt)) now w =
  (Returned (failure 400 "Cannot send message to yourself"), w, []).
Proof.
  intros Hme Htrim Hu.
  assert (txt ≠ "") as Htne by (intros ->; by rewrite trim_empty in Htrim).
  unfold post_message, try_catch. cbn [receiverId text_ falsy str default from_option id].
  rewrite !bool_decide_eq_false_2 by (done || by rewrite length_zero_empty).
  cbn [orb]. rewrite (run_findById_known _ _ _ _ Hu). cbv beta iota.
  by rewrite bool_decide_eq_true_2.
Qed.


Section Rejections.

Context (socket : Socket) (me : UserId) (data : SendData) (now : Time)
        (w : World).









End Rejections.


(** * Further properties of the handlers and routes *)

(** ** What a handler's trace may contain *)

Section EmitsOnly.

Context (Q : Effect → Prop).

Lemma emits_only_ret {A} (a : A) : emits_only Q (mret a : Handler A).
Proof. intros w. constructor. Qed.

Lemma emits_only_throw {A} e : emits_only Q (throw e : Handler A).
Proof. intros w. constructor. Qed.

Lemma emits_only_gets {A} (f : World → A) : emits_only Q (gets f).
Proof. intros w. constructor. Qed.

Lemma emits_only_modify (f : World → World) : emits_only Q (modify f).
Proof. intros w. constructor. Qed.

Lemma emits_only_effect e : Q e → emits_only Q (effect e).
Proof. intros He w. by repeat constructor. Qed.

Lemma emits_only_store op : Q (Stored op) → emits_only Q (store op).
Proof. intros He w. by repeat constructor. Qed.

Lemma emits_only_bind {A B} (m : Handler A) (f : A → Handler B) :
  emits_only Q m → (∀ a, emits_only Q (f a)) → emits_only Q (m ≫= f).
Proof.
  intros Hm Hf w. specialize (Hm w).
  unfold mbind, Handler_bind, trace in *.
  destruct (m w) as [[[a|e] w1] t1]; simpl in *; [| done].
  specialize (Hf a w1). unfold trace in Hf.
  destruct (f a w1) as [[r w2] t2]; simpl in *.
  by apply Forall_app_2.
Qed.

Lemma emits_only_try_catch {A} (body : Handler A) (handler : Exn → Handler A) :
  emits_only Q body → (∀ e, emits_only Q (handler e)) →
  emits_only Q (try_catch body handler).
Proof.
  intros Hb Hh w. specialize (Hb w).
  unfold try_catch, trace in *.
  destruct (body w) as [[[a|e] w1] t1]; simpl in *; [done |].
  specialize (Hh e w1). unfold trace in Hh.
  destruct (handler e w1) as [[r w2] t2]; simpl in *.
  by apply Forall_app_2.
Qed.

End EmitsOnly.

Ltac emits_only side :=
  repeat first
    [ apply emits_only_ret
    | apply emits_only_throw
    | apply emits_only_gets
    | apply emits_only_modify
    | apply emits_only_effect; side
    | apply emits_only_store; side
    | apply emits_only_bind
    | apply emits_only_try_catch
    | intros ?
    | case_match ].

Ltac unfold_handlers :=
  unfold handle, silently, responding,
    on_connection, on_message_send, on_typing_start, on_typing_stop,
    on_message_read, on_conversation_read, on_status_update, on_disconnect,
    get_conversation_messages, post_message, put_message_read,
    put_conversation_read, get_user, put_user_status,
    Message_create, Message_findByIdAndUpdate_read, Message_findById,
    Message_markAsRead, Message_markAsDelivered, Message_countUnread,
    messageData, User_findById, User_findByIdAndUpdate,
    activeUsers_get, activeUsers_set, activeUsers_delete,
    userSockets_set, userSockets_delete,
    socket_emit, io_to_emit, broadcast_emit.

Lemma handle_inserts_fresh now req : emits_only inserts_fresh (handle now req).
Proof.
  destruct req; unfold_handlers;
    emits_only ltac:(first [exact I | by repeat split]).
Qed.

(** ** Invariants of the Message collection *)

Section MessageInvariant.

Context (P : Message → Prop).
Hypothesis P_fresh : ∀ doc,
  validate doc = [] → delivered doc = false → read doc = false →
  readAt doc = None → deliveredAt doc = None → P doc.
Hypothesis P_set_read : ∀ now m, P m → P (set_read now m).
Hypothesis P_set_delivered : ∀ now m, P m → P (set_delivered now m).

Lemma Forall_update_where (p : Message → bool) (f : Message → Message)
    (ms : list Message) :
  (∀ m, P m → P (f m)) → Forall P ms → Forall P (update_where p f ms).
Proof.
  intros Hf Hms. unfold update_where. apply Forall_fmap.
  eapply Forall_impl; [exact Hms |]. intros m Hm. simpl.
  destruct (p m); auto.
Qed.

Lemma replay_trace_invariant (t : list Effect) (ms : list Message) :
  Forall inserts_fresh t → Forall P ms → Forall P (replay (stored_ops t) ms).
Proof.
  revert ms. induction t as [|e t IH]; intros ms Ht Hms; [done |].
  apply Forall_cons in Ht as [He Ht].
  destruct e as [| | | |op]; try (by apply IH).
  change (stored_ops (Stored op :: t)) with (op :: stored_ops t).
  simpl. apply IH; [done |].
  destruct op; simpl.
  - apply Forall_app_2; [done |]. repeat constructor.
    destruct He as (?&?&?&?&?). by apply P_fresh.
  - apply Forall_alter; auto.
  - apply Forall_alter; auto.
  - apply Forall_update_where; auto.
  - apply Forall_update_where; auto.
  - done.
Qed.

Lemma run_invariant (reqs : list (Time * Request)) (w : World) :
  Forall P (messages w) → Forall P (messages (run reqs w)).
Proof.
  revert w. induction reqs as [|[now req] reqs IH]; intros w Hw; [done |].
  simpl. apply IH. rewrite handle_writes_through.
  apply replay_trace_invariant; [apply handle_inserts_fresh | done].
Qed.

End MessageInvariant.

Lemma validate_nil_valid_text (doc : Message) : validate doc = [] → valid_text doc.
Proof.
  unfold validate, valid_text. intros Hv.
  apply app_eq_nil in Hv as [H1 H2].
  split.
  - intros Ht. by rewrite bool_decide_eq_true_2 in H1.
  - destruct (decide (maxlength < String.length (text doc))); [done | lia].
Qed.

(** Whatever requests are handled, every stored message keeps a text that is
    not empty and has at most [maxlength] characters. *)
Theorem stored_texts_stay_valid (reqs : list (Time * Request)) (w : World) :
  Forall valid_text (messages w) → Forall valid_text (messages (run reqs w)).
Proof.
  apply run_invariant.
  - intros doc Hv _ _ _ _. by apply validate_nil_valid_text.
  - by intros now [].
  - by intros now [].
Qed.

(** Whatever requests are handled, a stored message is delivered exactly
    when it has a delivery timestamp and read exactly when it has a read
    timestamp. *)
Theorem flags_match_timestamps (reqs : list (Time * Request)) (w : World) :
  Forall well_stamped (messages w) → Forall well_stamped (messages (run reqs w)).
Proof.
  apply run_invariant.
  - intros doc _ Hd Hr Hra Hda. unfold well_stamped.
    rewrite Hd, Hr, Hra, Hda. split; split; intros H; try done; by destruct H.
  - intros now m [Hd Hr]. split; [done |]. simpl. split; eauto.
  - intros now m [Hd Hr]. split; [| done]. simpl. split; eauto.
Qed.

(** ** What the REST routes and the typing relay never do *)

(** A REST request pushes nothing over the live channel: its trace holds
    writes to the store only. In particular a message sent through
    [POST /messages] is not pushed to its receiver, and a mark-read through
    REST does not notify the sender. *)
Theorem rest_routes_emit_nothing (now : Time) (req : Request) (w : World) :
  request_socket req = None →
  Forall (λ e, ¬ is_emit e) (trace (handle now req w)).
Proof.
  intros Hreq. revert w. fold (emits_only (λ e, ¬ is_emit e) (handle now req)).
  destruct req; try discriminate Hreq; unfold_handlers;
    emits_only ltac:(by intros []).
Qed.

(** Typing indicators are relayed and nothing else: the world is left as it
    was, nothing is written to the store, a receiver without a registered
    connection gets nothing (and the sender no error), and a registered
    receiver gets exactly one event carrying the typist's id and name. *)
Theorem typing_is_relayed_only (socket : Socket) (receiverId : UserId)
    (w : World) :
  let start := on_typing_start socket receiverId w in
  let stop := on_typing_stop socket receiverId w in
  final_world start = w ∧ final_world stop = w
  ∧ (activeUsers w !! receiverId = None → trace start = [] ∧ trace stop = [])
  ∧ (∀ sid, activeUsers w !! receiverId = Some sid → sid ≠ "" →
       trace start = [IoToEmit sid (typing_start (socket_userId socket)
                                      (socket_username socket))]
       ∧ trace stop = [IoToEmit sid (typing_stop (socket_userId socket)
                                       (socket_username socket))]).
Proof.
  cbv zeta. unfold on_typing_start, on_typing_stop, activeUsers_get.
  rewrite !run_bind_gets.
  destruct (activeUsers w !! receiverId) as [sid|] eqn:Hreg; simpl.
  - destruct (bool_decide (sid = "")) eqn:Hsid; simpl.
    + do 3 (split; [done |]). intros sid' [= <-] Hne.
      by apply bool_decide_eq_true_1 in Hsid.
    + do 3 (split; [done |]). by intros sid' [= <-] _.
  - do 3 (split; [done |]). by intros sid' [=].
Qed.

(** ** The user directory *)

Ltac preserves_by side :=
  repeat first
    [ apply preserves_ret
    | apply preserves_throw
    | apply preserves_gets
    | apply preserves_effect
    | apply preserves_store; side
    | apply preserves_modify; side
    | apply preserves_bind
    | apply preserves_try_catch
    | case_match
    | lazymatch goal with |- ∀ _, _ => intros ? end ].

Lemma names_apply_op (op : StoreOp) (w : World) (u : UserId) :
  username <$> users (apply_op op w) !! u = username <$> users w !! u.
Proof.
  destruct op; try reflexivity. simpl.
  rewrite lookup_alter. case_decide; [subst | done].
  by destruct (users w !! u).
Qed.

(** No handler or route adds, removes or renames a user: for every id, the
    directory of any later world holds a user of that id exactly when the
    earlier one did, with the same name. *)
Theorem directory_is_stable (reqs : list (Time * Request)) (w : World)
    (u : UserId) :
  username <$> users (run reqs w) !! u = username <$> users w !! u.
Proof.
  revert w. induction reqs as [|[now req] reqs IH]; intros w; [done |].
  simpl. rewrite IH. revert w.
  fold (preserves (λ w, username <$> users w !! u) (handle now req)).
  destruct req; unfold_handlers;
    preserves_by ltac:(first [reflexivity | intros ?; apply names_apply_op]).
Qed.

(** ** The registry maps *)

Lemma handle_preserves_userSockets now req :
  match req with
  | Connection _ | Disconnect _ => True
  | _ => preserves userSockets (handle now req)
  end.
Proof.
  destruct req; try exact I; unfold_handlers; preserves_by ltac:(reflexivity).
Qed.

Lemma handle_registry_consistent (owner : SocketId → UserId) now req w :
  registry_consistent owner w → owned owner req →
  registry_consistent owner (final_world (handle now req w)).
Proof.
  intros [Hfwd Hown] Hreq.
  pose proof (handle_preserves_activeUsers now req) as Hau.
  pose proof (handle_preserves_userSockets now req) as Hus.
  destruct req as [s| | | | | | |s| | | |];
    try (split; [rewrite Hau, Hus | rewrite Hus]; assumption).
  - (* connection *)
    simpl in Hreq. split; simpl.
    + intros u sid [[<- <-]|[Hne Hu]]%lookup_insert_Some.
      * apply lookup_insert_eq.
      * rewrite lookup_insert_ne; [by apply Hfwd |].
        intros <-. apply Hne. rewrite Hreq. symmetry.
        by apply Hown, Hfwd.
    + intros sid u [[<- <-]|[Hne Hu]]%lookup_insert_Some; [done |].
      by apply Hown.
  - (* disconnect *)
    simpl in Hreq. split; simpl.
    + intros u sid [Hne Hu]%lookup_delete_Some.
      rewrite lookup_delete_ne; [by apply Hfwd |].
      intros <-. apply Hne. rewrite Hreq. symmetry.
      by apply Hown, Hfwd.
    + intros sid u [Hne Hu]%lookup_delete_Some. by apply Hown.
Qed.

(** As long as every request arrives on a connection with its own user,
    the two registry maps stay consistent: a user registered in
    [activeUsers] under a connection id is the user [userSockets] records
    for that id, and [userSockets] records for a connection nobody but its
    owner. *)
Theorem registry_stays_consistent (owner : SocketId → UserId)
    (reqs : list (Time * Request)) (w : World) :
  registry_consistent owner w →
  Forall (λ tr, owned owner tr.2) reqs →
  registry_consistent owner (run reqs w).
Proof.
  revert w. induction reqs as [|[now req] reqs IH]; intros w Hw Hall; [done |].
  apply Forall_cons in Hall as [Hreq Hall]. simpl.
  apply IH; [| done]. by apply handle_registry_consistent.
Qed.

(** The two exported helpers agree: a user is listed by [getOnlineUsers]
    exactly when [isUserOnline] says so. *)
Theorem online_helpers_agree (w : World) (u : UserId) :
  u ∈ getOnlineUsers w ↔ isUserOnline w u = true.
Proof.
  unfold getOnlineUsers, isUserOnline. rewrite bool_decide_eq_true.
  rewrite list_elem_of_fmap. split.
  - intros [[u' sid] [-> Hin]]. apply elem_of_map_to_list in Hin. by eexists.
  - intros [sid Hsid]. exists (u, sid). split; [done |].
    by apply elem_of_map_to_list.
Qed.

(** ** Presence *)


(** Disconnecting marks the user offline as of now (if the directory holds
    that user), removes the connection from [userSockets], leaves other
    users' documents and all messages alone, and both helpers report the
    user offline, whichever connection of that user was registered. *)
Theorem disconnect_marks_offline (socket : Socket) (now : Time) (w : World) :
  let w' := final_world (on_disconnect socket now w) in
  let u := socket_userId socket in
  users w' !! u = set_presence false now <$> users w !! u
  ∧ (∀ u', u' ≠ u → users w' !! u' = users w !! u')
  ∧ userSockets w' !! socket_id socket = None
  ∧ messages w' = messages w
  ∧ isUserOnline w' u = false
  ∧ u ∉ getOnlineUsers w'.
Proof.
  cbv zeta.
  assert (Hoff : isUserOnline (final_world (on_disconnect socket now w))
                   (socket_userId socket) = false).
  { unfold isUserOnline. simpl. rewrite lookup_delete_eq.
    apply bool_decide_eq_false_2. by intros [? ?]. }
  split; [simpl; apply lookup_alter_eq |].
  split; [intros u' Hne; simpl; by rewrite lookup_alter_ne |].
  split; [simpl; apply lookup_delete_eq |].
  split; [reflexivity |].
  split; [exact Hoff |].
  rewrite online_helpers_agree, Hoff. discriminate.
Qed.

(** ** Bulk updates: the fetch and the conversation-wide mark-read *)

Lemma lookup_update_where (p : Message → bool) (f : Message → Message)
    (ms : list Message) (i : MsgId) :
  update_where p f ms !! i = (λ m, if p m then f m else m) <$> ms !! i.
Proof. unfold update_where. apply list_lookup_fmap. Qed.

Lemma insert_newest_first_perm (p : MsgId * Message)
    (l : list (MsgId * Message)) :
  insert_newest_first p l ≡ₚ p :: l.
Proof.
  induction l as [|q l IH]; simpl; [done |].
  destruct (createdAt q.2 <=? createdAt p.2); [done |].
  rewrite IH. apply Permutation_swap.
Qed.

Lemma newest_first_perm (l : list (MsgId * Message)) : newest_first l ≡ₚ l.
Proof.
  induction l as [|p l IH]; simpl; [done |].
  by rewrite insert_newest_first_perm, IH.
Qed.

(** Every message of a fetched page is a message of the store, exchanged
    by the two users, with the user documents the store holds for its
    two ends. *)
Lemma elem_of_conversation_page userId1 userId2 page limit w p :
  p ∈ conversation_page userId1 userId2 page limit w →
  messages w !! pm_id p = Some (pm_doc p)
  ∧ exchanged_by userId1 userId2 (pm_doc p) = true
  ∧ pm_sender p = users w !! sender (pm_doc p)
  ∧ pm_receiver p = users w !! receiver (pm_doc p).
Proof.
  unfold conversation_page. intros Hp.
  apply list_elem_of_fmap in Hp as ([i m] & -> & Hq). simpl.
  apply elem_of_take in Hq as (k & Hq & _).
  rewrite lookup_drop in Hq. apply list_elem_of_lookup_2 in Hq.
  rewrite newest_first_perm in Hq.
  apply list_elem_of_In, filter_In in Hq as [Hq Hex].
  apply list_elem_of_In, elem_of_lookup_imap in Hq as (j & y & [= -> ->] & Hj).
  done.
Qed.

Lemma conversation_page_length userId1 userId2 page limit w :
  length (conversation_page userId1 userId2 page limit w) ≤ limit.
Proof.
  unfold conversation_page. rewrite length_fmap, length_take. lia.
Qed.

Lemma conversation_page_nil userId1 userId2 page limit w :
  existsb (exchanged_by userId1 userId2) (messages w) = false →
  conversation_page userId1 userId2 page limit w = [].
Proof.
  intros Hnone.
  destruct (conversation_page userId1 userId2 page limit w) as [|p l] eqn:Hpage;
    [done |].
  destruct (elem_of_conversation_page userId1 userId2 page limit w p)
    as (Hi & Hex & _); [rewrite Hpage; left |].
  assert (existsb (exchanged_by userId1 userId2) (messages w) = true);
    [| congruence].
  apply existsb_exists. exists (pm_doc p). split; [| done].
  by apply list_elem_of_lookup_2, list_elem_of_In in Hi.
Qed.

Lemma conversation_page_first_nonempty userId1 userId2 w :
  existsb (exchanged_by userId1 userId2) (messages w) = true →
  ∃ p, p ∈ conversation_page userId1 userId2 default_page default_limit w.
Proof.
  intros Hsome. apply existsb_exists in Hsome as (m & Hm & Hex).
  apply list_elem_of_In, list_elem_of_lookup in Hm as [i Hi].
  unfold conversation_page, default_page, default_limit.
  change ((1 - 1) * 50) with 0. rewrite drop_0.
  assert (Hin : (i, m) ∈ newest_first
                  (List.filter (λ p, exchanged_by userId1 userId2 p.2)
                     (imap pair (messages w)))).
  { rewrite newest_first_perm. apply list_elem_of_In, filter_In.
    split; [| done]. apply list_elem_of_In, elem_of_lookup_imap. by exists i, m. }
  destruct (newest_first _) as [|q l]; [by apply elem_of_nil in Hin |].
  eexists. rewrite fmap_take. simpl. left.
Qed.

(** When the documents of both users exist, every message of a page can
    be formatted. *)
Lemma format_message_is_Some userId1 userId2 page limit w me p :
  p ∈ conversation_page userId1 userId2 page limit w →
  is_Some (users w !! userId1) → is_Some (users w !! userId2) →
  is_Some (format_message me p).
Proof.
  intros Hp [u1 H1] [u2 H2].
  destruct (elem_of_conversation_page _ _ _ _ _ _ Hp) as (_ & Hex & Hs & Hr).
  unfold format_message. rewrite Hs, Hr. unfold exchanged_by in Hex.
  apply orb_true_iff in Hex as [Hex | Hex];
    apply andb_true_iff in Hex as [Ha Hb];
    apply bool_decide_eq_true_1 in Ha; apply bool_decide_eq_true_1 in Hb;
    by rewrite Ha, Hb, H1, H2.
Qed.

Lemma format_message_None userId1 userId2 page limit w me p :
  p ∈ conversation_page userId1 userId2 page limit w →
  users w !! userId1 = None →
  format_message me p = None.
Proof.
  intros Hp H1.
  destruct (elem_of_conversation_page _ _ _ _ _ _ Hp) as (_ & Hex & Hs & Hr).
  unfold format_message. rewrite Hs, Hr. unfold exchanged_by in Hex.
  apply orb_true_iff in Hex as [Hex | Hex];
    apply andb_true_iff in Hex as [Ha Hb];
    apply bool_decide_eq_true_1 in Ha; apply bool_decide_eq_true_1 in Hb;
    rewrite Ha, Hb, H1; [done |].
  by destruct (users w !! userId2).
Qed.

Lemma run_get_conversation_messages me otherUserId now w :
  get_conversation_messages me otherUserId now w =
  match users w !! otherUserId with
  | Some _ =>
      (Returned
         (match mapM (format_message me)
                  (reverse (conversation_page me otherUserId
                              default_page default_limit w)) with
          | Some formattedMessages =>
              mkResponse 200 true None
                (ConversationPage formattedMessages default_page default_limit
                   (bool_decide
                      (length (conversation_page me otherUserId
                                 default_page default_limit w)
                       = default_limit)))
          | None => failure 500 "Server error while fetching messages"
          end),
       apply_op (MarkAsDelivered otherUserId me now) w,
       [Stored (MarkAsDelivered otherUserId me now)])
  | None =>
      (Returned (if castable otherUserId then failure 404 "User not found"
                 else failure 400 "Invalid user ID"),
       w, [])
  end.
Proof.
  unfold get_conversation_messages, try_catch.
  destruct (users w !! otherUserId) as [d|] eqn:Hu.
  - rewrite (run_findById_known _ _ _ _ Hu). cbv beta iota.
    unfold Message_getConversation, Message_markAsDelivered. repeat step.
    by destruct (mapM _ _).
  - destruct (castable otherUserId) eqn:Hc.
    + by rewrite (run_findById_unknown _ _ _ Hu Hc).
    + by rewrite (run_findById_malformed _ _ _ Hu Hc).
Qed.

(** A fetch that names no [page] and no [limit]. Fetching the conversation
    with a known user marks delivered, as of the fetch, exactly the so far
    undelivered messages from that user to the fetcher. Afterwards every
    message from that user to the fetcher is delivered; messages of the
    other direction, of other conversations, or delivered before keep every
    field, their delivery timestamp included; no read state changes and no
    message is added. The answer is 200 when the two users have exchanged
    no message or the fetcher's own user document exists: it holds at most
    50 messages, each a message of the store that the two users exchanged,
    shown with the text and the delivery and read flags it had before the
    fetch, so a message this fetch delivers is still shown undelivered.
    Otherwise formatting the page fails after the update and the answer is
    500. Fetching the conversation with a user id that casts and is
    unknown answers 404, with one that does not cast 400, and both change
    nothing. *)
Theorem fetch_marks_delivered (me other : UserId) (now : Time) (w : World) :
  let r := get_conversation_messages me other now w in
  let ms' := messages (final_world r) in
  (users w !! other = None → castable other = true →
     r = (Returned (failure 404 "User not found"), w, []))
  ∧ (users w !! other = None → castable other = false →
     r = (Returned (failure 400 "Invalid user ID"), w, []))
  ∧ (is_Some (users w !! other) →
     (existsb (exchanged_by me other) (messages w) = false
      ∨ is_Some (users w !! me) →
      ∃ formatted hasMore,
        outcome r = Returned (mkResponse 200 true None
                                (ConversationPage formatted
                                   default_page default_limit hasMore))
        ∧ length formatted ≤ default_limit
        ∧ (hasMore = true ↔ length formatted = default_limit)
        ∧ (∀ f, f ∈ formatted →
             ∃ m, messages w !! fm_id f = Some m
                  ∧ exchanged_by me other m = true
                  ∧ fm_text f = text m
                  ∧ fm_delivered f = delivered m
                  ∧ fm_read f = read m
                  ∧ fm_isFromMe f = bool_decide (sender m = me)))
     ∧ (existsb (exchanged_by me other) (messages w) = true →
        users w !! me = None →
        outcome r = Returned (failure 500 "Server error while fetching messages"))
     ∧ trace r = [Stored (MarkAsDelivered other me now)]
     ∧ length ms' = length (messages w)
     ∧ (∀ i m, ms' !! i = Some m → sender m = other → receiver m = me →
               delivered m = true)
     ∧ (∀ i m, messages w !! i = Some m →
               sender m = other → receiver m = me → delivered m = false →
               ms' !! i = Some (set_delivered now m))
     ∧ (∀ i m, messages w !! i = Some m →
               sender m ≠ other ∨ receiver m ≠ me ∨ delivered m = true →
               ms' !! i = Some m)
     ∧ (∀ i m m', messages w !! i = Some m → ms' !! i = Some m' →
                  read m' = read m ∧ readAt m' = readAt m)).
Proof.
  cbv zeta. rewrite run_get_conversation_messages.
  split; [by intros -> -> |]. split; [by intros -> -> |]. intros [u Hu].
  rewrite Hu.
  unfold outcome, final_world, trace. cbn [fst snd].
  change (messages (apply_op (MarkAsDelivered other me now) w))
    with (update_where (undelivered_from other me) (set_delivered now) (messages w)).
  set (page := conversation_page me other default_page default_limit w).
  split.
  { intros Hok.
    assert (Hall : is_Some (mapM (format_message me) (reverse page))).
    { destruct Hok as [Hnone | Hme].
      - subst page. by rewrite (conversation_page_nil _ _ _ _ _ Hnone).
      - apply mapM_is_Some, Forall_forall. intros p Hp.
        apply (proj1 (elem_of_reverse _ _)) in Hp.
        by apply (format_message_is_Some me other default_page default_limit w). }
    destruct Hall as [formatted Hf]. rewrite Hf.
    exists formatted, (bool_decide (length page = default_limit)).
    pose proof (length_mapM _ _ _ Hf) as Hlen. rewrite length_reverse in Hlen.
    split; [done |].
    split; [rewrite <- Hlen; apply conversation_page_length |].
    split; [rewrite <- Hlen; apply bool_decide_eq_true |].
    intros f Hin. apply list_elem_of_lookup in Hin as [k Hk].
    apply mapM_Some in Hf.
    destruct (Forall2_lookup_r _ _ _ _ _ Hf Hk) as (p & Hp & Hfmt).
    apply list_elem_of_lookup_2 in Hp.
    apply (proj1 (elem_of_reverse _ _)) in Hp.
    destruct (elem_of_conversation_page _ _ _ _ _ _ Hp) as (Hi & Hex & _).
    unfold format_message in Hfmt.
    destruct (pm_sender p), (pm_receiver p); try discriminate Hfmt.
    injection Hfmt as <-. simpl. by exists (pm_doc p). }
  split.
  { intros Hsome Hme.
    destruct (conversation_page_first_nonempty _ _ _ Hsome) as [p Hp].
    replace (mapM (format_message me) (reverse page)) with (@None (list FormattedMessage));
      [done |].
    symmetry. apply mapM_None, Exists_exists. exists p.
    split; [by apply elem_of_reverse_2 |].
    by apply (format_message_None me other default_page default_limit w). }
  split; [done |].
  split; [unfold update_where; apply length_fmap |].
  split; [| split; [| split]].
  - intros i m. rewrite lookup_update_where.
    destruct (messages w !! i) as [m0|]; [| done]. simpl. intros [= <-].
    destruct (undelivered_from other me m0) eqn:Hp; [done |].
    intros Hs Hr. unfold undelivered_from in Hp.
    rewrite !bool_decide_eq_true_2 in Hp by done. simpl in Hp.
    by apply negb_false_iff in Hp.
  - intros i m Hi Hs Hr Hd. rewrite lookup_update_where, Hi. simpl.
    unfold undelivered_from.
    by rewrite !bool_decide_eq_true_2, Hd by done.
  - intros i m Hi Hcases. rewrite lookup_update_where, Hi. simpl.
    replace (undelivered_from other me m) with false; [done |].
    unfold undelivered_from. destruct Hcases as [H | [H | H]].
    + by rewrite (bool_decide_eq_false_2 _ H).
    + by rewrite (bool_decide_eq_false_2 _ H), andb_false_r.
    + by rewrite H, andb_false_r.
  - intros i m m' Hi. rewrite lookup_update_where, Hi. simpl. intros [= <-].
    by destruct (undelivered_from other me m).
Qed.

(** The conversation-wide mark-read, through REST and over the live channel
    alike, marks read as of now exactly the unread messages from the named
    sender to the caller. Messages already read keep their read timestamp,
    messages of other conversations or of the other direction keep every
    field, no delivery state changes, and the REST answer counts exactly
    the messages that were unread. *)
Theorem conversation_read_scope (socket : Socket) (senderId : UserId)
    (now : Time) (w : World) (u : User) :
  users w !! senderId = Some u →
  let me := socket_userId socket in
  let rest := put_conversation_read me senderId now w in
  let live := on_conversation_read socket senderId now w in
  let ms' := messages (final_world rest) in
  messages (final_world live) = ms'
  ∧ outcome rest =
    Returned (mkResponse 200 true (Some "Messages marked as read")
                (Modified (count_where (unread_from senderId me) (messages w))))
  ∧ (∀ i m, messages w !! i = Some m →
            sender m = senderId → receiver m = me → read m = false →
            ms' !! i = Some (set_read now m))
  ∧ (∀ i m, messages w !! i = Some m →
            sender m ≠ senderId ∨ receiver m ≠ me ∨ read m = true →
            ms' !! i = Some m)
  ∧ (∀ i m m', messages w !! i = Some m → ms' !! i = Some m' →
               delivered m' = delivered m ∧ deliveredAt m' = deliveredAt m).
Proof.
  intros Hu. cbv zeta.
  rewrite run_put_conversation_read, Hu, run_on_conversation_read.
  rewrite (casts_known _ _ _ Hu).
  unfold outcome, final_world. cbn [fst snd].
  change (messages (apply_op (MarkAsRead senderId (socket_userId socket) now) w))
    with (update_where (unread_from senderId (socket_userId socket))
            (set_read now) (messages w)).
  split; [done |]. split; [done |].
  split; [| split].
  - intros i m Hi Hs Hr Hd. rewrite lookup_update_where, Hi. simpl.
    unfold unread_from.
    by rewrite !bool_decide_eq_true_2, Hd by done.
  - intros i m Hi Hcases. rewrite lookup_update_where, Hi. simpl.
    replace (unread_from senderId (socket_userId socket) m) with false; [done |].
    unfold unread_from. destruct Hcases as [H | [H | H]].
    + by rewrite (bool_decide_eq_false_2 _ H).
    + by rewrite (bool_decide_eq_false_2 _ H), andb_false_r.
    + by rewrite H, andb_false_r.
  - intros i m m' Hi. rewrite lookup_update_where, Hi. simpl. intros [= <-].
    by destruct (unread_from senderId (socket_userId socket) m).
Qed.

(** ** How sending, fetching and reading compose *)

(** A message accepted over the live channel while its receiver has no
    registered connection is stored undelivered; when the receiver later
    fetches the conversation with the sender, that message becomes
    delivered as of the fetch, and the fetch pushes nothing over the live
    channel. *)
Theorem offline_send_delivered_by_fetch (socket : Socket) (data : SendData)
    (now later : Time) (w : World) (rid txt : string) (su ru : User) :
  accepted_send socket data w rid txt su ru →
  activeUsers w !! rid = None →
  let w1 := final_world (on_message_send socket data now w) in
  let i := length (messages w) in
  let fetch := get_conversation_messages rid (socket_userId socket) later w1 in
  messages w1 !! i = Some (sent_doc socket rid txt now)
  ∧ delivered (sent_doc socket rid txt now) = false
  ∧ messages (final_world fetch) !! i
    = Some (set_delivered later (sent_doc socket rid txt now))
  ∧ trace fetch = [Stored (MarkAsDelivered (socket_userId socket) rid later)].
Proof.
  intros Hacc Hreg. cbv zeta.
  rewrite (send_to_offline _ _ now _ _ _ _ _ Hacc) by (by rewrite Hreg).
  unfold final_world, trace. cbn [fst snd].
  rewrite run_get_conversation_messages.
  change (users (apply_op (InsertMessage ?d) w)) with (users w).
  rewrite (acc_sender_known _ _ _ _ _ _ _ Hacc). cbn [fst snd].
  change (messages (apply_op (InsertMessage ?d) w)) with (messages w ++ [d]).
  split; [by apply list_lookup_middle |].
  split; [done |]. split; [| done].
  change (messages (apply_op (MarkAsDelivered ?a ?b ?c) ?x))
    with (update_where (undelivered_from a b) (set_delivered c) (messages x)).
  change (messages (apply_op (InsertMessage ?d) w)) with (messages w ++ [d]).
  rewrite lookup_update_where, list_lookup_middle by done. simpl.
  unfold undelivered_from, sent_doc. simpl.
  by rewrite !bool_decide_eq_true_2.
Qed.

(** An accepted [POST /messages] answers 201 and stores the message
    undelivered and unread; it does so whether or not the receiver has a
    registered connection, and it emits nothing. *)
Theorem rest_send_stores_undelivered (me : UserId) (body : SendData)
    (now : Time) (w : World) (rid txt : string) (su ru : User) :
  receiverId body = Some rid → rid ≠ "" → rid ≠ me →
  text_ body = Some txt → trim txt ≠ "" →
  String.length (trim txt) ≤ maxlength →
  users w !! rid = Some ru → users w !! me = Some su →
  let doc := new_Message me rid (trim txt) now in
  let d := mkMessageData (length (messages w)) (trim txt)
             (mkUserRef me (username su)) (mkUserRef rid (username ru))
             false false now in
  post_message me body now w =
  (Returned (mkResponse 201 true (Some "Message sent successfully")
               (SentMessage d now true)),
   apply_op (InsertMessage doc) w,
   [Stored (InsertMessage doc)]).
Proof.
  intros Hr Hrne Hme Ht Htrim Hlen Hru Hsu. cbv zeta.
  assert (txt ≠ "") as Htne by (intros ->; by rewrite trim_empty in Htrim).
  unfold post_message, try_catch.
  rewrite Hr, Ht. cbn [falsy str default from_option id].
  rewrite !bool_decide_eq_false_2 by (done || by rewrite length_zero_empty).
  cbn [orb].
  rewrite (run_findById_known _ _ _ _ Hru). cbv beta iota.
  unfold Message_create. rewrite validate_accepted by done.
  unfold User_byObjectId. repeat step.
  change (users (apply_op (InsertMessage ?x) w)) with (users w).
  cbn [sender receiver new_Message]. rewrite Hru, Hsu.
  unfold messageData. step. reflexivity.
Qed.

Lemma alter_missing (f : Message → Message) (i : MsgId) (ms : list Message) :
  ms !! i = None → alter f i ms = ms.
Proof.
  intros Hi. apply list_eq. intros j.
  destruct (decide (i = j)) as [<-|Hne].
  - by rewrite list_lookup_alter_eq, Hi.
  - by rewrite list_lookup_alter_ne.
Qed.

(** The live read receipt is routed by the [senderId] of the request, not
    by the sender of the message: for a stored message the handler notifies
    the connection registered for [senderId], if any, that the requesting
    user read the message now. For a message id the store does not hold,
    no message changes and nobody is notified. *)
Theorem read_receipt_goes_to_claimed_sender (socket : Socket) (i : MsgId)
    (senderId : UserId) (now : Time) (w : World) :
  let r := on_message_read socket i senderId now w in
  (messages w !! i = None →
     messages (final_world r) = messages w
     ∧ trace r = [Stored (UpdateRead i now)])
  ∧ (∀ m sid, messages w !! i = Some m →
       activeUsers w !! senderId = Some sid → sid ≠ "" →
       trace r = [Stored (UpdateRead i now);
                  IoToEmit sid
                    (message_read i (socket_userId socket) (Some now))])
  ∧ (∀ m, messages w !! i = Some m → activeUsers w !! senderId = None →
       trace r = [Stored (UpdateRead i now)]).
Proof.
  cbv zeta. rewrite run_on_message_read. unfold final_world, trace.
  cbn [fst snd]. rewrite list_lookup_alter_eq.
  split; [| split].
  - intros Hi. rewrite Hi. split; [| done]. simpl.
    by apply alter_missing.
  - intros m sid Hi Hreg Hne. rewrite Hi, Hreg. simpl.
    by rewrite bool_decide_eq_false_2.
  - intros m Hi Hreg. by rewrite Hi, Hreg.
Qed.

(** ** Edge cases of sending and of marking read *)

(** If the sender's user document is gone from the directory when an
    otherwise acceptable live send arrives, the message is stored all the
    same, but building the payload from the populated document fails: the
    sender receives the general failure, the receiver is not notified even
    when connected, and the stored message stays undelivered. *)
Theorem send_by_unknown_sender_is_stored_yet_fails (socket : Socket)
    (data : SendData) (now : Time) (w : World) (rid txt : string) (ru : User) :
  receiverId data = Some rid → rid ≠ "" →
  text_ data = Some txt → trim txt ≠ "" →
  String.length (trim txt) ≤ maxlength →
  users w !! rid = Some ru →
  users w !! socket_userId socket = None →
  on_message_send socket data now w =
  (Returned tt,
   apply_op (InsertMessage (sent_doc socket rid txt now)) w,
   [Stored (InsertMessage (sent_doc socket rid txt now));
    SocketEmit (socket_id socket) (error "Failed to send message")]).
Proof.
  intros Hr Hrne Ht Htrim Hlen Hru Hsu.
  assert (txt ≠ "") as Htne by (intros ->; by rewrite trim_empty in Htrim).
  unfold on_message_send, try_catch.
  rewrite Hr, Ht. cbn [falsy str default from_option id].
  rewrite !bool_decide_eq_false_2 by (done || by rewrite length_zero_empty).
  cbn [orb].
  rewrite (run_findById_known _ _ _ _ Hru). cbv beta iota.
  unfold Message_create. rewrite validate_accepted by done.
  unfold User_byObjectId. repeat step.
  change (users (apply_op (InsertMessage ?x) w)) with (users w).
  cbn [sender receiver new_Message]. rewrite Hru, Hsu.
  unfold messageData. rewrite run_bind_throw. reflexivity.
Qed.

(** The four outcomes of [PUT /messages/:id/read]. A path parameter that
    is no object id: the lookup throws, the route's catch answers 400
    'Invalid message ID', nothing changes. An id the store does not hold:
    404, nothing changes. A message addressed to someone else: 403,
    nothing changes. A message addressed to the caller: 200, that message
    becomes read as of now with its delivery state untouched, and every
    other message stays as it was. *)
Theorem rest_mark_read_outcomes (me : UserId) (i : MsgId) (now : Time)
    (w : World) :
  let r := put_message_read me i now w in
  put_message_read me NotAnObjectId now w
    = (Returned (failure 400 "Invalid message ID"), w, [])
  ∧ (messages w !! i = None →
     r = (Returned (failure 404 "Message not found"), w, []))
  ∧ (∀ m, messages w !! i = Some m → receiver m ≠ me →
       r = (Returned (failure 403 "Not authorized to mark this message as read"),
            w, []))
  ∧ (∀ m, messages w !! i = Some m → receiver m = me →
       outcome r = Returned (mkResponse 200 true (Some "Message marked as read")
                               (ReadReceipt i true (Some now)))
       ∧ messages (final_world r) !! i = Some (set_read now m)
       ∧ delivered (set_read now m) = delivered m
       ∧ deliveredAt (set_read now m) = deliveredAt m
       ∧ (∀ j, j ≠ i → messages (final_world r) !! j = messages w !! j)
       ∧ users (final_world r) = users w).
Proof.
  cbv zeta. rewrite run_put_message_read. split; [done |]. split; [| split].
  - by intros ->.
  - intros m -> Hne. by rewrite bool_decide_eq_false_2.
  - intros m Hi Hme. rewrite Hi, bool_decide_eq_true_2 by done.
    unfold outcome, final_world. cbn [fst snd].
    change (messages (apply_op (UpdateRead i now) w))
      with (alter (set_read now) i (messages w)).
    split; [done |].
    split; [by rewrite list_lookup_alter_eq, Hi |].
    split; [done |]. split; [done |].
    split; [| done]. intros j Hj. by rewrite list_lookup_alter_ne.
Qed.

(** Only send requests add to the Message collection: any other request
    leaves the number of stored messages as it was (and, by the first
    property, every stored message in its place). *)
Theorem only_sends_add_messages (now : Time) (req : Request) (w : World) :
  is_send req = false →
  length (messages (final_world (handle now req w))) = length (messages w).
Proof.
  intros Hreq. revert w.
  fold (preserves (λ w, length (messages w)) (handle now req)).
  destruct req; try discriminate Hreq; unfold_handlers;
    preserves_by ltac:(first
      [ reflexivity
      | intros ?; simpl; by rewrite ?length_alter
      | intros ?; simpl; unfold update_where; by rewrite length_fmap ]).
Qed.

(** ** The user routes *)

Lemma run_put_user_status me o now w :
  put_user_status me o now w =
  (Returned
     match users w !! me with
     | Some doc =>
         mkUsersResponse 200 true (Some "Status updated successfully")
           (StatusOf (mkUserView me (username doc) (default true o) now))
     | None =>
         mkUsersResponse 500 false (Some "Server error while updating status")
           NoUsersData
     end,
   apply_op (UpdatePresence me (default true o) now) w,
   [Stored (UpdatePresence me (default true o) now)]).
Proof.
  unfold put_user_status, try_catch, User_findByIdAndUpdate, User_byObjectId.
  repeat step.
  change (users (apply_op (UpdatePresence ?a ?b ?c) w))
    with (alter (set_presence b c) a (users w)).
  rewrite lookup_alter_eq.
  by destruct (users w !! me).
Qed.

(** A status update writes the same presence whether it arrives over the
    live channel or through [PUT /users/status]: [isOnline] as requested,
    or [true] when the request names none, and [lastSeen] now. Only the
    live channel broadcasts it. Neither path touches the registry, so a
    user who reports offline stays registered. The route answers with the
    updated document, or with 500 when the directory does not hold the
    user. *)
Theorem status_update_paths_agree (socket : Socket) (o : option bool)
    (now : Time) (w : World) :
  let u := socket_userId socket in
  let online := default true o in
  let live := on_status_update socket o now w in
  let rest := put_user_status u o now w in
  final_world rest = final_world live
  ∧ users (final_world live) !! u = set_presence online now <$> users w !! u
  ∧ activeUsers (final_world live) = activeUsers w
  ∧ userSockets (final_world live) = userSockets w
  ∧ messages (final_world live) = messages w
  ∧ trace live = [Stored (UpdatePresence u online now);
                  BroadcastEmit (socket_id socket) (user_status u online now)]
  ∧ trace rest = [Stored (UpdatePresence u online now)]
  ∧ outcome rest =
    Returned
      match users w !! u with
      | Some doc =>
          mkUsersResponse 200 true (Some "Status updated successfully")
            (StatusOf (mkUserView u (username doc) online now))
      | None =>
          mkUsersResponse 500 false (Some "Server error while updating status")
            NoUsersData
      end.
Proof.
  cbv zeta. rewrite run_put_user_status.
  repeat split. simpl. apply lookup_alter_eq.
Qed.

Lemma run_get_user me userId w :
  get_user me userId w =
  (Returned
     match users w !! userId with
     | Some doc =>
         mkUsersResponse 200 true None
           (Profile (view_of userId doc)
              (count_where (unread_from userId me) (messages w)))
     | None =>
         if castable userId
         then mkUsersResponse 404 false (Some "User not found") NoUsersData
         else mkUsersResponse 400 false (Some "Invalid user ID") NoUsersData
     end,
   w, []).
Proof.
  unfold get_user, try_catch, Message_countUnread.
  destruct (users w !! userId) as [d|] eqn:Hu.
  - by rewrite (run_findById_known _ _ _ _ Hu).
  - destruct (castable userId) eqn:Hc.
    + by rewrite (run_findById_unknown _ _ _ Hu Hc).
    + by rewrite (run_findById_malformed _ _ _ Hu Hc).
Qed.

(** [GET /users/:id] changes nothing and reports, for a known user, how
    many unread messages that user has sent to the caller; for an id that
    casts and is unknown it answers 404, for a string that does not cast
    (as when another path segment lands in [:id]) 400. The count it
    reports is the number of messages that a conversation-wide mark-read
    by the caller then modifies, and right after that mark-read the route
    reports zero. *)
Theorem unread_count_cleared_by_conversation_read (me other : UserId)
    (now : Time) (w : World) :
  let n := count_where (unread_from other me) (messages w) in
  let marked := put_conversation_read me other now w in
  final_world (get_user me other w) = w
  ∧ trace (get_user me other w) = []
  ∧ (users w !! other = None → castable other = true →
     outcome (get_user me other w)
     = Returned (mkUsersResponse 404 false (Some "User not found") NoUsersData))
  ∧ (users w !! other = None → castable other = false →
     outcome (get_user me other w)
     = Returned (mkUsersResponse 400 false (Some "Invalid user ID") NoUsersData))
  ∧ (∀ doc, users w !! other = Some doc →
     outcome (get_user me other w)
     = Returned (mkUsersResponse 200 true None (Profile (view_of other doc) n))
     ∧ outcome marked
       = Returned (mkResponse 200 true (Some "Messages marked as read")
                     (Modified n))
     ∧ outcome (get_user me other (final_world marked))
       = Returned (mkUsersResponse 200 true None
                     (Profile (view_of other doc) 0))).
Proof.
  cbv zeta. rewrite run_get_user.
  split; [done |]. split; [done |].
  split; [by intros -> -> |]. split; [by intros -> -> |].
  intros doc Hdoc. rewrite Hdoc. split; [done |].
  rewrite run_put_conversation_read, Hdoc.
  split; [done |].
  unfold final_world. cbn [fst snd]. rewrite run_get_user.
  change (users (apply_op (MarkAsRead ?a ?b ?c) w)) with (users w).
  rewrite Hdoc. unfold outcome. cbn [fst snd].
  change (messages (apply_op (MarkAsRead other me now) w))
    with (update_where (unread_from other me) (set_read now) (messages w)).
  by rewrite markAsRead_leaves_none_unread.
Qed.

(** ** Who is online *)

(** Whether a user is registered after a run is decided by the last
    request that connected or disconnected a connection of that user,
    whichever connection it was; if there was none, nothing changed. *)
Theorem online_follows_last_registration (reqs : list (Time * Request))
    (w : World) (u : UserId) :
  isUserOnline (run reqs w) u = last_registration u reqs (isUserOnline w u).
Proof.
  revert w. induction reqs as [|[now req] reqs IH]; intros w; [done |].
  simpl. rewrite IH.
  assert (Hstep : isUserOnline (final_world (handle now req w)) u =
                  match req with
                  | Connection s =>
                      if decide (socket_userId s = u) then true
                      else isUserOnline w u
                  | Disconnect s =>
                      if decide (socket_userId s = u) then false
                      else isUserOnline w u
                  | _ => isUserOnline w u
                  end).
  { unfold isUserOnline. rewrite handle_activeUsers.
    destruct req as [s| | | | | | |s| | | |]; try done.
    - destruct (decide (socket_userId s = u)) as [<-|Hne].
      + rewrite lookup_insert_eq. by apply bool_decide_eq_true_2.
      + by rewrite lookup_insert_ne.
    - destruct (decide (socket_userId s = u)) as [<-|Hne].
      + rewrite lookup_delete_eq. apply bool_decide_eq_false_2. by intros [].
      + by rewrite lookup_delete_ne. }
  rewrite Hstep. by destruct req.
Qed.

(** After a disconnect of any connection of a user, an accepted message to
    that user is not pushed: it is stored undelivered and acknowledged with
    [delivered = false], even if another connection of the user is open. *)
Theorem send_after_disconnect_is_not_pushed (gone socket : Socket)
    (data : SendData) (t now : Time) (w : World) (txt : string) (su ru : User) :
  let w1 := final_world (on_disconnect gone t w) in
  let rid := socket_userId gone in
  accepted_send socket data w1 rid txt su ru →
  on_message_send socket data now w1 =
  (Returned tt,
   apply_op (InsertMessage (sent_doc socket rid txt now)) w1,
   [Stored (InsertMessage (sent_doc socket rid txt now));
    SocketEmit (socket_id socket)
      (message_sent (sent_data socket rid txt su ru (length (messages w)) now)
         true)]).
Proof.
  cbv zeta. intros Hacc.
  rewrite (send_to_offline _ _ now _ _ _ _ _ Hacc); [done |].
  simpl. by rewrite lookup_delete_eq.
Qed.

(** ** Which writes change a delivery timestamp *)

(** A send, accepted or refused, leaves every message already in the store
    exactly as it was. *)
Lemma send_keeps_existing_messages (socket : Socket) (data : SendData)
    (now : Time) (w : World) (i : MsgId) (m : Message) :
  messages w !! i = Some m →
  messages (final_world (on_message_send socket data now w)) !! i = Some m.
Proof.
  intros Hi.
  assert (Hnew : ∀ doc, (messages w ++ [doc]) !! i = Some m)
    by (intros doc; by apply lookup_app_l_Some).
  assert (Halt : ∀ doc f, alter f (length (messages w)) (messages w ++ [doc]) !! i
                          = Some m).
  { intros doc f. rewrite list_lookup_alter_ne; [done |].
    apply lookup_lt_Some in Hi. lia. }
  unfold on_message_send, try_catch.
  destruct (falsy (receiverId data) || falsy (text_ data)
            || bool_decide (String.length (trim (str (text_ data))) = 0));
    [done |].
  destruct (users w !! str (receiverId data)) as [d|] eqn:Hu.
  2: { destruct (castable (str (receiverId data))) eqn:Hc;
         [ by rewrite (run_findById_unknown _ _ _ Hu Hc)
         | by rewrite (run_findById_malformed _ _ _ Hu Hc) ]. }
  rewrite (run_findById_known _ _ _ _ Hu). cbv beta iota.
  unfold Message_create.
  destruct (validate _); [| by rewrite run_bind_throw].
  unfold User_byObjectId. repeat step.
  change (users (apply_op (InsertMessage ?x) w)) with (users w).
  unfold messageData.
  destruct (users w !! sender _); [| rewrite run_bind_throw; apply Hnew].
  destruct (users w !! receiver _); [| rewrite run_bind_throw; apply Hnew].
  step. unfold activeUsers_get. step.
  destruct (negb (falsy _)); unfold io_to_emit, socket_emit; repeat step.
  - apply Halt.
  - apply Hnew.
Qed.

Lemma post_keeps_existing_messages (me : UserId) (body : SendData)
    (now : Time) (w : World) (i : MsgId) (m : Message) :
  messages w !! i = Some m →
  messages (final_world (post_message me body now w)) !! i = Some m.
Proof.
  intros Hi.
  assert (Hnew : ∀ doc, (messages w ++ [doc]) !! i = Some m)
    by (intros doc; by apply lookup_app_l_Some).
  unfold post_message, try_catch.
  destruct (falsy (receiverId body) || falsy (text_ body)); [done |].
  destruct (bool_decide (String.length (trim (str (text_ body))) = 0)); [done |].
  destruct (users w !! str (receiverId body)) as [d|] eqn:Hu.
  2: { destruct (castable (str (receiverId body))) eqn:Hc;
         [ by rewrite (run_findById_unknown _ _ _ Hu Hc)
         | by rewrite (run_findById_malformed _ _ _ Hu Hc) ]. }
  rewrite (run_findById_known _ _ _ _ Hu). cbv beta iota.
  destruct (bool_decide (str (receiverId body) = me)); [done |].
  unfold Message_create.
  destruct (validate _); [| by rewrite run_bind_throw].
  unfold User_byObjectId. repeat step.
  change (users (apply_op (InsertMessage ?x) w)) with (users w).
  unfold messageData.
  destruct (users w !! sender _); [| rewrite run_bind_throw; apply Hnew].
  destruct (users w !! receiver _); [| rewrite run_bind_throw; apply Hnew].
  step. apply Hnew.
Qed.

Lemma final_world_silently (h : Handler unit) (w : World) :
  final_world (silently h w) = final_world (h w).
Proof.
  unfold silently, mbind, Handler_bind, final_world.
  by destruct (h w) as [[[[]|e] w1] t1].
Qed.

Lemma final_world_responding (h : Handler Response) (w : World) :
  final_world (responding h w) = final_world (h w).
Proof.
  unfold responding, mbind, Handler_bind, final_world.
  by destruct (h w) as [[[a|e] w1] t1].
Qed.

(** A send request, over the live channel or through REST, accepted or
    refused, leaves every message already in the store exactly as it
    was: sends add, they never modify. *)
Theorem sends_keep_existing_messages (now : Time) (req : Request) (w : World)
    (i : MsgId) (m : Message) :
  is_send req = true →
  messages w !! i = Some m →
  messages (final_world (handle now req w)) !! i = Some m.
Proof.
  intros Hreq Hi. destruct req; try discriminate Hreq.
  - simpl handle. rewrite final_world_silently.
    by apply send_keeps_existing_messages.
  - simpl handle. rewrite final_world_responding.
    by apply post_keeps_existing_messages.
Qed.

Lemma replay_keeps_delivery (ops : list StoreOp) (ms : list Message)
    (i : MsgId) (m : Message) :
  (∀ t, SaveDelivered i t ∉ ops) →
  ms !! i = Some m → delivered m = true →
  ∃ m', replay ops ms !! i = Some m' ∧ delivery_kept m m'.
Proof.
  revert ms m. induction ops as [|op ops IH]; intros ms m Hops Hi Hd.
  { exists m. by split. }
  simpl.
  assert (∃ m1, apply_messages op ms !! i = Some m1 ∧ delivery_kept m m1)
    as (m1 & Hi1 & [Hd1 Ha1]).
  { destruct op as [doc|j now|j now|s r now|s r now|u o now]; simpl.
    - exists m. split; [by apply lookup_app_l_Some | done].
    - destruct (decide (j = i)) as [->|Hne].
      + destruct (Hops now). apply elem_of_cons. by left.
      + exists m. by rewrite list_lookup_alter_ne.
    - destruct (decide (j = i)) as [->|Hne].
      + exists (set_read now m). by rewrite list_lookup_alter_eq, Hi.
      + exists m. by rewrite list_lookup_alter_ne.
    - rewrite lookup_update_where, Hi. simpl.
      destruct (unread_from s r m); by eexists.
    - rewrite lookup_update_where, Hi. simpl.
      unfold undelivered_from. rewrite Hd, andb_false_r. by eexists.
    - by exists m. }
  assert (Hrest : ∀ t, SaveDelivered i t ∉ ops).
  { intros t Ht. apply (Hops t), elem_of_cons. by right. }
  destruct (IH _ m1 Hrest Hi1) as (m' & Hi' & [Hd' Ha']); [congruence |].
  exists m'. split; [done |]. split; congruence.
Qed.

Lemma handle_no_save_delivered now req :
  match req with
  | MessageSend _ _ => True
  | _ => emits_only not_save_delivered (handle now req)
  end.
Proof.
  destruct req; try exact I; unfold_handlers; emits_only ltac:(exact I).
Qed.

(** Which writes change a delivery timestamp. The handlers run
    interleaved, so the store sees their writes in any order. Whatever
    that order, as long as it holds no delivered-save of message [i], a
    delivered message [i] stays delivered with the timestamp it had: the
    bulk mark of a fetch skips it, a read changes other fields, an insert
    appends. A delivered-save of [i] does overwrite the timestamp, also of
    a message that is delivered already. The only handler that issues a
    delivered-save is the live send; no other request does. *)
Theorem delivery_timestamp_changed_by_delivered_save_only :
  (∀ (ops : list StoreOp) (ms : list Message) (i : MsgId) (m : Message),
     (∀ t, SaveDelivered i t ∉ ops) →
     ms !! i = Some m → delivered m = true →
     ∃ m', replay ops ms !! i = Some m'
           ∧ delivered m' = true ∧ deliveredAt m' = deliveredAt m)
  ∧ (∀ (ms : list Message) (i : MsgId) (m : Message) (t : Time),
       ms !! i = Some m →
       ∃ m', replay [SaveDelivered i t] ms !! i = Some m'
             ∧ delivered m' = true ∧ deliveredAt m' = Some t)
  ∧ (∀ (now : Time) (req : Request) (w : World),
       (∀ socket data, req ≠ MessageSend socket data) →
       Forall not_save_delivered (trace (handle now req w))).
Proof.
  split; [| split].
  - intros ops ms i m Hops Hi Hd.
    destruct (replay_keeps_delivery ops ms i m Hops Hi Hd) as (m' & Hi' & [? ?]).
    exists m'. split; [done |]. split; congruence.
  - intros ms i m t Hi. exists (set_delivered t m). simpl.
    by rewrite list_lookup_alter_eq, Hi.
  - intros now req w Hreq.
    pose proof (handle_no_save_delivered now req) as H.
    destruct req; try apply H. by destruct (Hreq socket data).
Qed.

End Properties.

(** * Concrete runs of the scenario *)

#[global] Existing Instance scenario_ids.

Example send_while_offline_then_fetch :
  let w := run [(1, Connection alice_s1);
                (2, MessageSend alice_s1 (hi_to "bob"));
                (3, Connection bob_s3);
                (4, GetConversationMessages "bob" "alice")] world0 in
  trace (on_message_send alice_s1 (hi_to "bob") 2
           (run [(1, Connection alice_s1)] world0))
  = [Stored (InsertMessage (new_Message "alice" "bob" "hi" 2));
     SocketEmit "s1"
       (message_sent
          (mkMessageData 0 "hi" (mkUserRef "alice" "Alice")
             (mkUserRef "bob" "Bob") false false 2) true)]
  ∧ messages w = [set_delivered 4 (new_Message "alice" "bob" "hi" 2)].
Proof. split; reflexivity. Qed.

Lemma reconnect_replaces_mapping_witness :
  let w := run [(1, Connection alice_s1); (2, Connection bob_s3)] world0 in
  let reqs := [(4, MessageSend bob_s3 (hi_to "alice"));
               (5, Disconnect bob_s3);
               (6, PutConversationRead "alice" "bob")] in
  activeUsers w !! "alice" = Some "s1"
  ∧ activeUsers (run reqs (final_world (on_connection alice_s2 3 w))) !! "alice"
    = Some "s2".
Proof.
  intros w reqs. split; [reflexivity |].
  assert (Hreqs : Forall (λ tr, ¬ touches_registration "alice" tr.2) reqs).
  { repeat constructor; simpl; intros H; first [discriminate H | destruct H]. }
  destruct (reconnect_replaces_mapping alice_s2 3 w "s1" reqs eq_refl Hreqs)
    as (_ & _ & _ & _ & Hlater & _).
  exact Hlater.
Defined.

(** Alice is connected on [s1] and connects again on [s2]; the registry
    resolves her to [s2]. Then the replaced connection [s1] closes. No
    connection of alice has been registered since and [s2] is still open,
    yet a later resolve returns nothing, she counts as offline, and a
    message bob sends her is not pushed to [s2]. *)
Lemma resolve_after_replaced_connection_closes :
  let w := run [(1, Connection bob_s3); (2, Connection alice_s1)] world0 in
  let w1 := final_world (on_connection alice_s2 3 w) in
  let w2 := run [(4, Disconnect alice_s1)] w1 in
  activeUsers w !! "alice" = Some "s1"
  ∧ activeUsers w1 !! "alice" = Some "s2"
  ∧ userSockets w2 !! "s2" = Some "alice"
  ∧ activeUsers w2 !! "alice" = None
  ∧ isUserOnline w2 "alice" = false
  ∧ Forall (λ e, ∀ ev, e ≠ IoToEmit "s2" ev)
      (trace (on_message_send bob_s3 (hi_to "alice") 5 w2)).
Proof.
  do 5 (split; [reflexivity |]).
  repeat constructor; intros ev H; discriminate H.
Qed.

(** Alice connects on [s1], reconnects on [s2], and then the disconnect of
    [s1] arrives: the mapping to [s2] is gone although [s2] is still open. *)
Lemma stale_disconnect_removes_newer_mapping :
  let w := run [(1, Connection alice_s1); (2, Connection alice_s2)] world0 in
  activeUsers w !! "alice" = Some "s2"
  ∧ socket_id alice_s1 ≠ "s2"
  ∧ activeUsers (final_world (on_disconnect alice_s1 3 w)) !! "alice" = None
  ∧ userSockets (final_world (on_disconnect alice_s1 3 w)) !! "s2" = Some "alice".
Proof. repeat split; try reflexivity. discriminate. Qed.

Lemma delivery_state_never_regresses_witness :
  let w := run [(1, Connection alice_s1); (2, Connection bob_s3);
                (3, MessageSend alice_s1 (hi_to "bob"))] world0 in
  let m := set_delivered 3 (new_Message "alice" "bob" "hi" 3) in
  let reqs := [(4, MessageRead bob_s3 0 "alice");
               (5, GetConversationMessages "bob" "alice");
               (6, MessageSend bob_s3 (hi_to "alice"));
               (7, PutConversationRead "bob" "alice");
               (8, Disconnect bob_s3)] in
  messages w !! 0 = Some m
  ∧ ∃ m', messages (run reqs w) !! 0 = Some m'
          ∧ sender m' = sender m ∧ receiver m' = receiver m
          ∧ text m' = text m
          ∧ (delivered m = true → delivered m' = true)
          ∧ (read m = true → read m' = true).
Proof.
  intros w m reqs. split; [reflexivity |].
  apply (delivery_state_never_regresses reqs w 0 m). reflexivity.
Defined.

Lemma scenario_accepted :
  let w := run [(1, Connection alice_s1); (2, Connection bob_s3)] world0 in
  accepted_send alice_s1 (hi_to "bob") w "bob" "hi"
    (mkUser "Alice" true 1) (mkUser "Bob" true 2).
Proof.
  split; try reflexivity; try discriminate.
  unfold maxlength. simpl. lia.
Defined.

Lemma live_send_delivers_before_ack_witness :
  let w := run [(1, Connection alice_s1); (2, Connection bob_s3)] world0 in
  let r := on_message_send alice_s1 (hi_to "bob") 3 w in
  accepted_send alice_s1 (hi_to "bob") w "bob" "hi"
    (mkUser "Alice" true 1) (mkUser "Bob" true 2)
  ∧ ∃ pushed acked,
      trace r =
        [Stored (InsertMessage (new_Message "alice" "bob" "hi" 3));
         IoToEmit "s3" (message_new pushed false);
         Stored (SaveDelivered 0 3);
         SocketEmit "s1" (message_sent acked true)]
      ∧ md_id pushed = 0 ∧ md_text pushed = "hi"
      ∧ md_id acked = 0 ∧ md_text acked = "hi"
      ∧ md_delivered acked = true
      ∧ messages (final_world r) !! 0
        = Some (set_delivered 3 (new_Message "alice" "bob" "hi" 3))
      ∧ delivered (set_delivered 3 (new_Message "alice" "bob" "hi" 3)) = true.
Proof.
  intros w r. split; [exact scenario_accepted |].
  destruct (live_send_delivers_before_ack alice_s1 (hi_to "bob") 3 w
              "bob" "hi" _ _ scenario_accepted) as [Honline _].
  apply (Honline "s3"); [reflexivity | discriminate].
Defined.

Lemma message_new_is_undelivered_snapshot_witness :
  let w := run [(1, Connection alice_s1); (2, Connection bob_s3)] world0 in
  let r := on_message_send alice_s1 (hi_to "bob") 3 w in
  activeUsers w !! "bob" = Some "s3"
  ∧ (∀ sid d b, IoToEmit sid (message_new d b) ∈ trace r →
       sid = "s3" ∧ md_id d = 0 ∧ md_delivered d = false ∧ b = false)
  ∧ delivered <$> messages (final_world r) !! 0 = Some true.
Proof.
  intros w r. split; [reflexivity |].
  destruct (message_new_is_undelivered_snapshot alice_s1 (hi_to "bob") 3 w
              "bob" "hi" _ _ "s3" scenario_accepted eq_refl
              ltac:(discriminate)) as (_ & Hnew & _ & _ & Hstore).
  split; [exact Hnew | exact Hstore].
Defined.

Lemma mark_read_again_keeps_flag_refreshes_timestamp_witness :
  let w := run [(1, PostMessage "alice" (hi_to "bob"));
                (5, MessageRead bob_s3 0 "alice")] world0 in
  let m := set_read 5 (new_Message "alice" "bob" "hi" 1) in
  messages w !! 0 = Some m
  ∧ read m = true
  ∧ messages (final_world (on_message_read bob_s3 0 "alice" 9 w))
    = <[0 := set_read 9 m]> (messages w)
  ∧ readAt (set_read 9 m) = Some 9.
Proof.
  intros w m.
  destruct (mark_read_again_keeps_flag_refreshes_timestamp bob_s3 "alice" 0 9
              w m eq_refl eq_refl) as ((_ & _ & Hlive) & _ & _ & Hat & _).
  split; [reflexivity |]. split; [reflexivity |].
  split; [exact Hlive | exact Hat].
Defined.

(** Bob reads Alice's message at time 5 and the receipt is sent again at
    time 9: the message's read timestamp moves from 5 to 9, on the live
    channel and on the REST route alike. *)
Lemma mark_read_again_changes_readAt :
  let w := run [(1, PostMessage "alice" (hi_to "bob"));
                (5, MessageRead bob_s3 0 "alice")] world0 in
  let live := final_world (on_message_read bob_s3 0 "alice" 9 w) in
  let rest := final_world (put_message_read "bob" 0 9 w) in
  read <$> messages w !! 0 = Some true
  ∧ readAt <$> messages w !! 0 = Some (Some 5)
  ∧ readAt <$> messages live !! 0 = Some (Some 9)
  ∧ readAt <$> messages rest !! 0 = Some (Some 9)
  ∧ messages live ≠ messages w
  ∧ messages rest ≠ messages w.
Proof. repeat split; try reflexivity; discriminate. Qed.

(** [C9] Failing input for the receiver-only rule on the live channel.
    Alice's message to Bob is in the store; Carol, who is neither its
    sender nor its receiver, sends [message:read] for it. The handler marks
    the message read and tells Alice that Carol read it, whereas the REST
    route answers the same attempt with 403 and changes nothing. *)
Theorem live_mark_read_by_non_receiver_changes_state :
  let w := run [(1, Connection alice_s1); (2, Connection carol_s4);
                (3, PostMessage "alice" (hi_to "bob"))] world0 in
  let m := new_Message "alice" "bob" "hi" 3 in
  let r := on_message_read carol_s4 0 "alice" 4 w in
  messages w = [m]
  ∧ receiver m ≠ socket_userId carol_s4
  ∧ messages (final_world r) = [set_read 4 m]
  ∧ read (set_read 4 m) = true ∧ read m = false
  ∧ trace r = [Stored (UpdateRead 0 4);
               IoToEmit "s1" (message_read 0 "carol" (Some 4))]
  ∧ put_message_read "carol" 0 4 w =
    (Returned (failure 403 "Not authorized to mark this message as read"),
     w, []).
Proof. repeat split; try reflexivity. discriminate. Qed.

(** [C2] Failing input for the self-send rule on the live channel. Alice,
    connected on [s1], sends [message:send] with her own id as receiver.
    The handler reports no error: it stores the message, pushes
    [message:new] to Alice's own connection, marks the message delivered and
    acknowledges it, whereas the REST route answers the same request with
    400 "Cannot send message to yourself" and stores nothing. *)
Theorem live_self_send_is_persisted :
  let w := run [(1, Connection alice_s1)] world0 in
  let r := on_message_send alice_s1 (hi_to "alice") 2 w in
  let m := new_Message "alice" "alice" "hi" 2 in
  receiverId (hi_to "alice") = Some (socket_userId alice_s1)
  ∧ messages w = []
  ∧ messages (final_world r) = [set_delivered 2 m]
  ∧ stored_ops (trace r) = [InsertMessage m; SaveDelivered 0 2]
  ∧ Forall (λ e, ¬ emits_error e) (trace r)
  ∧ post_message "alice" (hi_to "alice") 2 w =
    (Returned (failure 400 "Cannot send message to yourself"), w, []).
Proof.
  repeat split; try reflexivity.
  repeat constructor; by intros [].
Qed.



Lemma stored_texts_stay_valid_witness :
  let reqs := [(1, Connection alice_s1);
               (2, MessageSend alice_s1 (hi_to "bob"));
               (3, MessageSend alice_s1 (mkSendData (Some "bob") (Some oversized_text)));
               (4, PostMessage "bob" (hi_to "alice"))] in
  Forall valid_text (messages world0)
  ∧ Forall valid_text (messages (run reqs world0))
  ∧ length (messages (run reqs world0)) = 2.
Proof.
  intros reqs.
  assert (H0 : Forall valid_text (messages world0)) by constructor.
  split; [exact H0 |].
  split; [exact (stored_texts_stay_valid reqs world0 H0) | by vm_compute].
Defined.

Lemma flags_match_timestamps_witness :
  let reqs := [(1, Connection bob_s3);
               (2, PostMessage "alice" (hi_to "bob"));
               (3, MessageRead bob_s3 0 "alice")] in
  Forall well_stamped (messages world0)
  ∧ Forall well_stamped (messages (run reqs world0))
  ∧ messages (run reqs world0) = [set_read 3 (new_Message "alice" "bob" "hi" 2)].
Proof.
  intros reqs.
  assert (H0 : Forall well_stamped (messages world0)) by constructor.
  split; [exact H0 |].
  split; [exact (flags_match_timestamps reqs world0 H0) | reflexivity].
Defined.

Lemma rest_routes_emit_nothing_witness :
  let w := run [(1, Connection alice_s1); (2, Connection bob_s3)] world0 in
  request_socket (PostMessage "alice" (hi_to "bob")) = None
  ∧ activeUsers w !! "bob" = Some "s3"
  ∧ Forall (λ e, ¬ is_emit e)
      (trace (handle 3 (PostMessage "alice" (hi_to "bob")) w)).
Proof.
  intros w. split; [reflexivity |]. split; [reflexivity |].
  exact (rest_routes_emit_nothing 3 (PostMessage "alice" (hi_to "bob")) w eq_refl).
Defined.

Lemma typing_is_relayed_only_witness :
  let w := run [(1, Connection alice_s1); (2, Connection bob_s3)] world0 in
  activeUsers w !! "bob" = Some "s3"
  ∧ activeUsers w !! "carol" = None
  ∧ trace (on_typing_start alice_s1 "bob" w)
    = [IoToEmit "s3" (typing_start "alice" "Alice")]
  ∧ trace (on_typing_stop alice_s1 "carol" w) = [].
Proof.
  intros w.
  destruct (typing_is_relayed_only alice_s1 "bob" w) as (_ & _ & _ & Hon).
  destruct (typing_is_relayed_only alice_s1 "carol" w) as (_ & _ & Hoff & _).
  split; [reflexivity |]. split; [reflexivity |].
  split; [apply (Hon "s3"); [reflexivity | discriminate] | by apply Hoff].
Defined.

Lemma registry_stays_consistent_witness :
  let owner := λ sid : string,
    if bool_decide (sid = "s3") then "bob" else "alice" in
  let reqs := [(1, Connection alice_s1); (2, Connection bob_s3);
               (3, Connection alice_s2); (4, Disconnect alice_s1);
               (5, MessageSend bob_s3 (hi_to "alice"))] in
  registry_consistent owner world0
  ∧ registry_consistent owner (run reqs world0)
  ∧ activeUsers (run reqs world0) !! "alice" = None
  ∧ userSockets (run reqs world0) !! "s2" = Some "alice".
Proof.
  intros owner reqs.
  assert (H0 : registry_consistent owner world0).
  { split; intros ? ? H; simpl in H; by rewrite lookup_empty in H. }
  split; [exact H0 |].
  split; [| split; reflexivity].
  apply (registry_stays_consistent owner reqs world0 H0).
  repeat constructor.
Defined.

Lemma fetch_marks_delivered_witness :
  let w := run [(1, PostMessage "alice" (hi_to "bob"));
                (2, PostMessage "bob" (hi_to "alice"))] world0 in
  let r := get_conversation_messages "bob" "alice" 3 w in
  is_Some (users w !! "alice")
  ∧ messages (final_world r) !! 0
    = Some (set_delivered 3 (new_Message "alice" "bob" "hi" 1))
  ∧ messages (final_world r) !! 1 = Some (new_Message "bob" "alice" "hi" 2)
  ∧ outcome r
    = Returned
        (mkResponse 200 true None
           (ConversationPage
              [mkFormattedMessage 0 "hi" (mkUserRef "alice" "Alice")
                 (mkUserRef "bob" "Bob") false false 1 1 false;
               mkFormattedMessage 1 "hi" (mkUserRef "bob" "Bob")
                 (mkUserRef "alice" "Alice") false false 2 2 true]
              1 50 false)).
Proof.
  intros w r.
  assert (Hu : is_Some (users w !! "alice")) by (eexists; reflexivity).
  destruct (fetch_marks_delivered "bob" "alice" 3 w) as (_ & _ & Hknown).
  destruct (Hknown Hu) as (_ & _ & _ & _ & _ & Hnew & Hold & _).
  split; [exact Hu |]. split; [| split].
  - apply (Hnew 0 (new_Message "alice" "bob" "hi" 1)); reflexivity.
  - apply (Hold 1 (new_Message "bob" "alice" "hi" 2)); [reflexivity |].
    left. discriminate.
  - reflexivity.
Defined.

Lemma conversation_read_scope_witness :
  let w := run [(1, PostMessage "alice" (hi_to "bob"));
                (2, PutMessageRead "bob" 0);
                (3, PostMessage "alice" (hi_to "bob"))] world0 in
  let ms' := messages (final_world (put_conversation_read "bob" "alice" 9 w)) in
  users w !! "alice" = Some (mkUser "Alice" false 0)
  ∧ ms' !! 0 = Some (set_read 2 (new_Message "alice" "bob" "hi" 1))
  ∧ ms' !! 1 = Some (set_read 9 (new_Message "alice" "bob" "hi" 3)).
Proof.
  intros w ms'.
  destruct (conversation_read_scope bob_s3 "alice" 9 w _ eq_refl)
    as (_ & _ & Hnew & Hold & _).
  split; [reflexivity |]. split.
  - apply (Hold 0 (set_read 2 (new_Message "alice" "bob" "hi" 1)));
      [reflexivity | by right; right].
  - apply (Hnew 1 (new_Message "alice" "bob" "hi" 3)); reflexivity.
Defined.

Lemma offline_send_delivered_by_fetch_witness :
  let w := run [(1, Connection alice_s1)] world0 in
  let w1 := final_world (on_message_send alice_s1 (hi_to "bob") 2 w) in
  accepted_send alice_s1 (hi_to "bob") w "bob" "hi"
    (mkUser "Alice" true 1) (mkUser "Bob" false 0)
  ∧ activeUsers w !! "bob" = None
  ∧ messages (final_world (get_conversation_messages "bob" "alice" 7 w1)) !! 0
    = Some (set_delivered 7 (new_Message "alice" "bob" "hi" 2)).
Proof.
  intros w w1.
  assert (Hacc : accepted_send alice_s1 (hi_to "bob") w "bob" "hi"
                   (mkUser "Alice" true 1) (mkUser "Bob" false 0)).
  { split; try reflexivity; try discriminate. unfold maxlength. simpl. lia. }
  split; [exact Hacc |]. split; [reflexivity |].
  destruct (offline_send_delivered_by_fetch alice_s1 (hi_to "bob") 2 7 w
              "bob" "hi" _ _ Hacc eq_refl) as (_ & _ & Hfetch & _).
  exact Hfetch.
Defined.

Lemma rest_send_stores_undelivered_witness :
  let w := run [(1, Connection bob_s3)] world0 in
  activeUsers w !! "bob" = Some "s3"
  ∧ post_message "alice" (hi_to "bob") 2 w =
    (Returned (mkResponse 201 true (Some "Message sent successfully")
                 (SentMessage
                    (mkMessageData 0 "hi" (mkUserRef "alice" "Alice")
                       (mkUserRef "bob" "Bob") false false 2) 2 true)),
     apply_op (InsertMessage (new_Message "alice" "bob" "hi" 2)) w,
     [Stored (InsertMessage (new_Message "alice" "bob" "hi" 2))]).
Proof.
  intros w. split; [reflexivity |].
  apply (rest_send_stores_undelivered "alice" (hi_to "bob") 2 w "bob" "hi"
           (mkUser "Alice" false 0) (mkUser "Bob" true 1));
    try reflexivity; try discriminate.
  unfold maxlength. simpl. lia.
Defined.

Lemma read_receipt_goes_to_claimed_sender_witness :
  let w := run [(1, Connection carol_s4);
                (2, PostMessage "alice" (hi_to "bob"))] world0 in
  messages w !! 0 = Some (new_Message "alice" "bob" "hi" 2)
  ∧ activeUsers w !! "carol" = Some "s4"
  ∧ trace (on_message_read bob_s3 0 "carol" 3 w)
    = [Stored (UpdateRead 0 3); IoToEmit "s4" (message_read 0 "bob" (Some 3))].
Proof.
  intros w.
  destruct (read_receipt_goes_to_claimed_sender bob_s3 0 "carol" 3 w)
    as (_ & Hon & _).
  split; [reflexivity |]. split; [reflexivity |].
  apply (Hon (new_Message "alice" "bob" "hi" 2) "s4");
    [reflexivity | reflexivity | discriminate].
Defined.

Lemma send_by_unknown_sender_is_stored_yet_fails_witness :
  let dave := mkSocket "s9" "dave" "Dave" in
  let w := run [(1, Connection bob_s3); (2, Connection dave)] world0 in
  users w !! "dave" = None
  ∧ activeUsers w !! "bob" = Some "s3"
  ∧ on_message_send dave (hi_to "bob") 3 w =
    (Returned tt,
     apply_op (InsertMessage (new_Message "dave" "bob" "hi" 3)) w,
     [Stored (InsertMessage (new_Message "dave" "bob" "hi" 3));
      SocketEmit "s9" (error "Failed to send message")]).
Proof.
  intros dave w. split; [reflexivity |]. split; [reflexivity |].
  apply (send_by_unknown_sender_is_stored_yet_fails dave (hi_to "bob") 3 w
           "bob" "hi" (mkUser "Bob" true 1));
    try reflexivity; try discriminate.
  unfold maxlength. simpl. lia.
Defined.

Lemma rest_mark_read_outcomes_witness :
  let w := run [(1, PostMessage "alice" (hi_to "bob"))] world0 in
  messages w !! 0 = Some (new_Message "alice" "bob" "hi" 1)
  ∧ put_message_read "bob" NotAnObjectId 2 w
    = (Returned (failure 400 "Invalid message ID"), w, [])
  ∧ put_message_read "bob" 5 2 w
    = (Returned (failure 404 "Message not found"), w, [])
  ∧ put_message_read "alice" 0 2 w
    = (Returned (failure 403 "Not authorized to mark this message as read"),
       w, [])
  ∧ messages (final_world (put_message_read "bob" 0 2 w)) !! 0
    = Some (set_read 2 (new_Message "alice" "bob" "hi" 1)).
Proof.
  intros w.
  destruct (rest_mark_read_outcomes "bob" 5 2 w) as (H400 & H404 & _).
  destruct (rest_mark_read_outcomes "alice" 0 2 w) as (_ & _ & H403 & _).
  destruct (rest_mark_read_outcomes "bob" 0 2 w) as (_ & _ & _ & H200).
  split; [reflexivity |].
  split; [exact H400 |].
  split; [by apply H404 |].
  split; [apply (H403 (new_Message "alice" "bob" "hi" 1));
          [reflexivity | discriminate] |].
  by destruct (H200 (new_Message "alice" "bob" "hi" 1) eq_refl eq_refl)
    as (_ & Hi & _).
Defined.

Lemma only_sends_add_messages_witness :
  let w := run [(1, PostMessage "alice" (hi_to "bob"))] world0 in
  is_send (MessageRead bob_s3 0 "alice") = false
  ∧ length (messages (final_world (handle 2 (MessageRead bob_s3 0 "alice") w)))
    = length (messages w).
Proof.
  intros w. split; [reflexivity |].
  exact (only_sends_add_messages 2 (MessageRead bob_s3 0 "alice") w eq_refl).
Defined.

Lemma unread_count_cleared_by_conversation_read_witness :
  let w := run [(1, PostMessage "alice" (hi_to "bob"));
                (2, PostMessage "alice" (hi_to "bob"));
                (3, PostMessage "bob" (hi_to "alice"))] world0 in
  let alice := mkUser "Alice" false 0 in
  users w !! "alice" = Some alice
  ∧ outcome (get_user "bob" "alice" w)
    = Returned (mkUsersResponse 200 true None
                  (Profile (view_of "alice" alice) 2))
  ∧ outcome (get_user "bob" "alice"
               (final_world (put_conversation_read "bob" "alice" 4 w)))
    = Returned (mkUsersResponse 200 true None
                  (Profile (view_of "alice" alice) 0)).
Proof.
  intros w alice.
  destruct (unread_count_cleared_by_conversation_read "bob" "alice" 4 w)
    as (_ & _ & _ & _ & Hknown).
  destruct (Hknown alice eq_refl) as (Hbefore & _ & Hafter).
  split; [reflexivity |]. split; [exact Hbefore | exact Hafter].
Defined.

Lemma send_after_disconnect_is_not_pushed_witness :
  let w := run [(1, Connection bob_s3); (2, Connection alice_s1);
                (3, Connection alice_s2)] world0 in
  let w1 := final_world (on_disconnect alice_s1 4 w) in
  userSockets w1 !! "s2" = Some "alice"
  ∧ accepted_send bob_s3 (hi_to "alice") w1 "alice" "hi"
      (mkUser "Bob" true 1) (mkUser "Alice" false 4)
  ∧ trace (on_message_send bob_s3 (hi_to "alice") 5 w1)
    = [Stored (InsertMessage (new_Message "bob" "alice" "hi" 5));
       SocketEmit "s3"
         (message_sent
            (mkMessageData 0 "hi" (mkUserRef "bob" "Bob")
               (mkUserRef "alice" "Alice") false false 5) true)].
Proof.
  intros w w1.
  assert (Hacc : accepted_send bob_s3 (hi_to "alice") w1 "alice" "hi"
                   (mkUser "Bob" true 1) (mkUser "Alice" false 4)).
  { split; try reflexivity; try discriminate. unfold maxlength. simpl. lia. }
  split; [reflexivity |]. split; [exact Hacc |].
  subst w1.
  by rewrite (send_after_disconnect_is_not_pushed alice_s1 bob_s3
                (hi_to "alice") 4 5 w "hi" _ _ Hacc).
Defined.

Lemma sends_keep_existing_messages_witness :
  let w := run [(1, Connection bob_s3);
                (2, PostMessage "alice" (hi_to "bob"))] world0 in
  let w' := final_world (handle 3 (MessageSend bob_s3 (hi_to "alice")) w) in
  messages w !! 0 = Some (new_Message "alice" "bob" "hi" 2)
  ∧ messages w' !! 0 = Some (new_Message "alice" "bob" "hi" 2)
  ∧ length (messages w') = 2.
Proof.
  intros w w'. split; [reflexivity |]. split; [| reflexivity].
  exact (sends_keep_existing_messages 3 (MessageSend bob_s3 (hi_to "alice")) w
           0 _ eq_refl eq_refl).
Defined.

(** The writes of a live send and of a fetch, interleaved. Alice's send to
    the connected bob inserts the message and awaits; bob's fetch marks it
    delivered at time 5; then the send's delivered-save lands at time 7 and
    overwrites the delivery timestamp. *)
Example late_delivered_save_overwrites_timestamp :
  let doc := new_Message "alice" "bob" "hi" 4 in
  replay [InsertMessage doc; MarkAsDelivered "alice" "bob" 5] [] !! 0
    = Some (set_delivered 5 doc)
  ∧ replay [InsertMessage doc; MarkAsDelivered "alice" "bob" 5;
            SaveDelivered 0 7] [] !! 0
    = Some (set_delivered 7 doc).
Proof. split; reflexivity. Qed.

Lemma delivery_timestamp_changed_by_delivered_save_only_witness :
  let m := set_delivered 2 (new_Message "alice" "bob" "hi" 1) in
  let ops := [MarkAsDelivered "alice" "bob" 3; UpdateRead 0 4;
              InsertMessage (new_Message "bob" "alice" "hi" 5);
              SaveDelivered 1 5; MarkAsRead "alice" "bob" 6] in
  (∀ t, SaveDelivered 0 t ∉ ops)
  ∧ (∃ m', replay ops [m] !! 0 = Some m'
           ∧ delivered m' = true ∧ deliveredAt m' = Some 2)
  ∧ (∃ m', replay [SaveDelivered 0 7] [m] !! 0 = Some m'
           ∧ delivered m' = true ∧ deliveredAt m' = Some 7)
  ∧ Forall not_save_delivered
      (trace (handle 3 (GetConversationMessages "bob" "alice") world0)).
Proof.
  intros m ops.
  assert (Hops : ∀ t, SaveDelivered 0 t ∉ ops).
  { intros t Ht. subst ops.
    repeat (apply elem_of_cons in Ht as [Ht|Ht]; [discriminate Ht |]).
    by apply elem_of_nil in Ht. }
  destruct delivery_timestamp_changed_by_delivered_save_only
    as (Hkept & Hsave & Hothers).
  split; [exact Hops |].
  split; [exact (Hkept ops [m] 0 m Hops eq_refl eq_refl) |].
  split; [exact (Hsave [m] 0 m 7 eq_refl) |].
  apply Hothers. intros socket data. discriminate.
Defined.
